(** * gpyrn.meanfunc: the mean functions of the GPRN

    A shallow embedding of [gpyrn/meanfunc.py].

    - Python floats and float64 arrays are read as real numbers and lists of
      real numbers: every arithmetic operation is the exact one of [R].  An
      array of integer times keeps its dtype, which [np.full_like] hands on
      to the array it builds.
    - Instances live in a store ([heap]); an instance is named by its
      reference.  Attribute assignment ([self.pars = ...]) rewrites the
      store; numpy arrays are never written in place by this module, so an
      array is a value.
    - A Python exception is an outcome [Raise cls], [cls] being the name of
      the exception class; the store reached when it is raised is kept. *)

From Stdlib Require Import Reals Lra Lia ZArith List String Bool DecimalString.
From stdpp Require Import base list.
Import ListNotations.

Open Scope string_scope.
Open Scope list_scope.
Open Scope R_scope.

(** ** Outcomes of a Python computation *)

Inductive outcome (A : Type) : Type :=
| Ok (a : A)              (* normal return *)
| Raise (exc : string)    (* an exception of class [exc] propagates *)
| Undef.                  (* no Python behaviour: dangling reference, or the
                             fuel of the embedding ran out *)
Arguments Ok {A} a.
Arguments Raise {A} exc.
Arguments Undef {A}.

Definition obind {A B : Type} (x : outcome A) (k : A -> outcome B) : outcome B :=
  match x with
  | Ok a => k a
  | Raise exc => Raise exc
  | Undef => Undef
  end.

Notation "x <~ c ;; k" := (obind c (fun x => k))
  (at level 100, c at next level, right associativity).

(** ** numpy and list primitives used by the module *)

(** What a caller may pass where an array is expected: a float, a float
    array, or an array of integers. *)
Inductive pyarg : Type :=
| PyFloat (x : R)
| PyArray (a : list R)
| PyIntArray (a : list Z).

(** [np.atleast_1d], the whole of the [array_input] decorator: the values
    of the array. *)
Definition np_atleast_1d (p : pyarg) : list R :=
  match p with
  | PyFloat x => [x]
  | PyArray a => a
  | PyIntArray a => map IZR a
  end.

(** The element type of an array.  Values are real numbers in either
    case; the type matters where a value is cast to it. *)
Inductive dtype : Type :=
| Float64
| Int64.

(** The dtype of [np.atleast_1d(p)]. *)
Definition dtype_of (p : pyarg) : dtype :=
  match p with
  | PyFloat _ => Float64
  | PyArray _ => Float64
  | PyIntArray _ => Int64
  end.

(** The cast of a float to an integer type: the fraction is dropped,
    towards zero. *)
Definition truncate (c : R) : Z :=
  if Rle_dec 0 c then Int_part c else (- Int_part (- c))%Z.

(** The cast of a float fill value to [dt]. *)
Definition astype (dt : dtype) (c : R) : R :=
  match dt with
  | Float64 => c
  | Int64 => IZR (truncate c)
  end.

(** What [set_parameters] returns: an array, or nothing at all. *)
Inductive value : Type :=
| PyNone
| PyNdarray (a : list R).

Definition Rgtb (x y : R) : bool := if Rgt_dec x y then true else false.
Definition Rleb (x y : R) : bool := if Rle_dec x y then true else false.

(** [a[i]] for a non-negative index. *)
Definition getitem (a : list R) (i : nat) : outcome R :=
  match a !! i with
  | Some x => Ok x
  | None => Raise "IndexError"
  end.

(** [p.pop(0)] on a Python list, keeping the list that is left. *)
Definition list_pop0 (p : list R) : outcome (list R) :=
  match p with
  | [] => Raise "IndexError"
  | _ :: q => Ok q
  end.

(** [for _ in range(n): p.pop(0)] *)
Fixpoint pop0_range (n : nat) (p : list R) : outcome (list R) :=
  match n with
  | O => Ok p
  | S k => q <~ list_pop0 p ;; pop0_range k q
  end.

(** Elementwise binary operation on two 1-d arrays, with numpy's
    broadcasting of an array of length one. *)
Fixpoint zip_with_R (f : R -> R -> R) (a b : list R) : list R :=
  match a, b with
  | x :: a', y :: b' => f x y :: zip_with_R f a' b'
  | _, _ => []
  end.

Definition np_broadcast (f : R -> R -> R) (a b : list R) : outcome (list R) :=
  if (length a =? length b)%nat then Ok (zip_with_R f a b)
  else match a, b with
       | [x], _ => Ok (map (f x) b)
       | _, [y] => Ok (map (fun x => f x y) a)
       | _, _ => Raise "ValueError"
       end.

Definition np_add := np_broadcast Rplus.
Definition np_mul := np_broadcast Rmult.

(** [np.full(t.shape, c)]: the array takes the type of the float [c]. *)
Definition np_full (t : list R) (c : R) : list R := map (fun _ => c) t.

(** [np.full_like(t, c)]: the array takes the type [dt] of [t], and [c] is
    cast to it. *)
Definition np_full_like (dt : dtype) (t : list R) (c : R) : list R :=
  map (fun _ => astype dt c) t.

(** [t.mean()] *)
Definition np_mean (t : list R) : R := fold_right Rplus 0 t / INR (length t).

(** [np.polyval(p, x)]: Horner's rule, highest degree first. *)
Definition np_polyval (p : list R) (x : R) : R :=
  fold_left (fun y pv => y * x + pv) p 0.

(** [np.ediff1d(a)]: differences of consecutive elements. *)
Fixpoint np_ediff1d (a : list Z) : list Z :=
  match a with
  | x :: ((y :: _) as tl) => (y - x)%Z :: np_ediff1d tl
  | _ => []
  end.

(** [mask.sum()] of a boolean array. *)
Fixpoint np_sum (mask : list bool) : nat :=
  match mask with
  | [] => O
  | b :: m => ((if b then 1 else 0) + np_sum m)%nat
  end.

(** [np.where(mask)[0]]: the indices at which the mask holds. *)
Fixpoint np_where_from (i : nat) (mask : list bool) : list nat :=
  match mask with
  | [] => []
  | b :: m => if b then i :: np_where_from (S i) m else np_where_from (S i) m
  end.
Definition np_where (mask : list bool) : list nat := np_where_from 0 mask.

(** [a[mask]] with a boolean mask, which must be as long as [a]. *)
Fixpoint select (a : list R) (mask : list bool) : list R :=
  match a, mask with
  | x :: a', b :: m => if b then x :: select a' m else select a' m
  | _, _ => []
  end.

Definition getitem_mask (a : list R) (mask : list bool) : outcome (list R) :=
  if (length a =? length mask)%nat then Ok (select a mask)
  else Raise "IndexError".

(** [np.sort] *)
Fixpoint insert_sorted (x : R) (l : list R) : list R :=
  match l with
  | [] => [x]
  | y :: l' => if Rleb x y then x :: l else y :: insert_sorted x l'
  end.
Definition np_sort (l : list R) : list R := fold_right insert_sorted [] l.

(** [np.digitize(t, bins)] for increasing bins: the number of edges that
    are at most [x] (the interval is closed on the left, open on the right). *)
Fixpoint searchsorted_right (bins : list R) (x : R) : nat :=
  match bins with
  | [] => O
  | b :: bs => if Rleb b x then S (searchsorted_right bs x) else O
  end.
Definition np_digitize (t bins : list R) : list Z :=
  map (fun x => Z.of_nat (searchsorted_right bins x)) t.

(** [np.take(a, ii)]: a negative index counts from the end, an index out
    of range raises. *)
Definition take_one (a : list R) (i : Z) : outcome R :=
  let n := Z.of_nat (length a) in
  if (0 <=? i)%Z then getitem a (Z.to_nat i)
  else if (- n <=? i)%Z then getitem a (Z.to_nat (n + i))
  else Raise "IndexError".

Fixpoint np_take (a : list R) (ii : list Z) : outcome (list R) :=
  match ii with
  | [] => Ok []
  | i :: rest => x <~ take_one a i ;; xs <~ np_take a rest ;; Ok (x :: xs)
  end.

(** ** Instances and the store *)

Definition ref := nat.

(** The class of an instance, with the attributes only that class has. *)
Inductive kind : Type :=
| KConstant
| KMultiConstant (obsid : list Z) (time : list R) (ii : list Z)
| KLinear
| KParabola
| KCubic
| KSine
| KKeplerian
| KSum (m1 m2 : ref)
| KProduct (m1 m2 : ref).

(** The attributes every instance is read through.  [_param_names] is
    [None] where neither the class nor the instance defines it.  The copies
    of the constructor arguments that [Linear] and [Keplerian] keep
    ([self.slope], [self.P], ...) are never read again and are left out. *)
Record object : Type := {
  kind_of : kind;
  pars : list R;
  _parsize : nat;
  _param_names : option (list string)
}.

Definition heap := list object.

(** State and exceptions: a computation maps the store to an outcome and
    the store it leaves. *)
Definition M (A : Type) : Type := heap -> outcome A * heap.

Definition ret {A : Type} (a : A) : M A := fun h => (Ok a, h).

Definition bind {A B : Type} (c : M A) (k : A -> M B) : M B :=
  fun h =>
    match c h with
    | (Ok a, h') => k a h'
    | (Raise exc, h') => (Raise exc, h')
    | (Undef, h') => (Undef, h')
    end.

Notation "x <- c ;; k" := (bind c (fun x => k))
  (at level 100, c at next level, right associativity).
Notation "c ;;; k" := (bind c (fun _ => k))
  (at level 100, right associativity).

Definition lift {A : Type} (x : outcome A) : M A := fun h => (x, h).

Definition raise {A : Type} (exc : string) : M A := lift (Raise exc).

(** [assert b] *)
Definition py_assert (b : bool) : M unit :=
  if b then ret tt else raise "AssertionError".

(** A new instance gets the next free reference. *)
Definition alloc (o : object) : M ref := fun h => (Ok (length h), h ++ [o]).

Definition deref (r : ref) : M object :=
  fun h =>
    match h !! r with
    | Some o => (Ok o, h)
    | None => (Undef, h)
    end.

Definition with_pars (o : object) (v : list R) : object :=
  {| kind_of := kind_of o; pars := v;
     _parsize := _parsize o; _param_names := _param_names o |}.

(** [self.pars = v] *)
Definition setattr_pars (self : ref) (v : list R) : M unit :=
  fun h =>
    match h !! self with
    | Some o => (Ok tt, <[self := with_pars o v]> h)
    | None => (Undef, h)
    end.

(** [m._param_names] *)
Definition getattr_param_names (o : object) : outcome (list string) :=
  match _param_names o with
  | Some names => Ok names
  | None => Raise "AttributeError"
  end.

(** ** The composites *)

Module Sum.
(** [Sum.__init__], meanfunc.py lines 71-75. *)
Definition __init__ (m1 m2 : ref) : M ref :=
  o1 <- deref m1 ;;
  o2 <- deref m2 ;;
  names1 <- lift (getattr_param_names o1) ;;
  names2 <- lift (getattr_param_names o2) ;;
  alloc {| kind_of := KSum m1 m2;
           pars := pars o1 ++ pars o2;
           _parsize := _parsize o1 + _parsize o2;
           _param_names := Some (names1 ++ names2) |}.

(** [Sum.__call__]; [callf] evaluates a child. *)
Definition __call__ (callf : ref -> list R -> outcome (list R))
    (m1 m2 : ref) (t : list R) : outcome (list R) :=
  a <~ callf m1 t ;;
  b <~ callf m2 t ;;
  np_add a b.
End Sum.

Module Product.
(** [Product.__init__], meanfunc.py lines 87-91. *)
Definition __init__ (m1 m2 : ref) : M ref :=
  o1 <- deref m1 ;;
  o2 <- deref m2 ;;
  names1 <- lift (getattr_param_names o1) ;;
  names2 <- lift (getattr_param_names o2) ;;
  alloc {| kind_of := KProduct m1 m2;
           pars := pars o1 ++ pars o2;
           _parsize := _parsize o1 + _parsize o2;
           _param_names := Some (names1 ++ names2) |}.

Definition __call__ (callf : ref -> list R -> outcome (list R))
    (m1 m2 : ref) (t : list R) : outcome (list R) :=
  a <~ callf m1 t ;;
  b <~ callf m2 t ;;
  np_mul a b.
End Product.

(** ** The base class *)

Module MeanModel.
(** [get_parameters], lines 40-41: the stored attribute itself. *)
Definition get_parameters (self : ref) : M (list R) :=
  o <- deref self ;;
  ret (pars o).

(** [set_parameters], lines 43-54. *)
Definition set_parameters (self : ref) (p : pyarg) : M value :=
  let p := np_atleast_1d p in
  o <- deref self ;;
  py_assert (length (pars o) <=? length p)%nat ;;;
  if (length (pars o) <? length p)%nat then
    setattr_pars self (take (length (pars o)) p) ;;;
    o' <- deref self ;;
    rest <- lift (pop0_range (length (pars o')) p) ;;
    ret (PyNdarray rest)
  else
    setattr_pars self p ;;;
    ret PyNone.

Definition __add__ (self b : ref) : M ref := Sum.__init__ self b.
Definition __radd__ (self b : ref) : M ref := __add__ self b.
Definition __mul__ (self b : ref) : M ref := Product.__init__ self b.
Definition __rmul__ (self b : ref) : M ref := __mul__ self b.
End MeanModel.

(** The two composition operators, to state a property of both at once. *)
Inductive composite_op : Type := OpSum | OpProduct.

Definition compose (op : composite_op) : ref -> ref -> M ref :=
  match op with
  | OpSum => MeanModel.__add__
  | OpProduct => MeanModel.__mul__
  end.

(** ** The leaves *)

Module Constant.
(** [_param_names = 'c',], [_parsize = 1] *)
Definition __init__ (c : R) : M ref :=
  alloc {| kind_of := KConstant; pars := [c];
           _parsize := 1; _param_names := Some ["c"] |}.

Definition __call__ (pars t : list R) : outcome (list R) :=
  c <~ getitem pars 0 ;;
  Ok (np_full t c).
End Constant.

Module MultiConstant.
(** [(np.ediff1d(obsid) == 1).sum() + 1] *)
Definition derived_parsize (obsid : list Z) : nat :=
  (np_sum (map (fun d => (d =? 1)%Z) (np_ediff1d obsid)) + 1)%nat.

(** [f'off{i}' for i in range(1, n)], then ['mean'] *)
Definition names (n : nat) : list string :=
  map (fun i => "off" ++ NilEmpty.string_of_uint (Nat.to_uint i))%string
      (seq 1 (n - 1)) ++ ["mean"].

(** [if isinstance(offsets, float): offsets = [offsets]] *)
Definition wrap_float (offsets : pyarg) : list R :=
  match offsets with
  | PyFloat x => [x]
  | PyArray a => a
  | PyIntArray a => map IZR a
  end.

(** [MultiConstant.__init__], lines 120-147.  The instance is entered in
    the store once the constructor returns: when the assertion fails no
    reference to the half-built instance is left. *)
Definition __init__ (offsets : pyarg) (obsid : list Z) (time : list R) : M ref :=
  let parsize := derived_parsize obsid in
  let ii := map (fun i => (i - 1)%Z) obsid in
  let offsets := wrap_float offsets in
  py_assert (length offsets =? parsize)%nat ;;;
  alloc {| kind_of := KMultiConstant obsid time ii; pars := offsets;
           _parsize := parsize; _param_names := Some (names parsize) |}.

(** [time_bins], lines 149-153. *)
Definition time_bins (obsid : list Z) (time : list R) : outcome (list R) :=
  let d := np_ediff1d obsid in
  _1 <~ getitem_mask time (map (fun x => negb (x =? 0)%Z) (d ++ [0%Z])) ;;
  _2 <~ getitem_mask time (map (fun x => negb (x =? 0)%Z) (0%Z :: d)) ;;
  offset_times <~ (if (length _1 =? length _2)%nat
                   then Ok (zip_with_R (fun a b => (a + b) / 2) _1 _2)
                   else Raise "ValueError") ;;
  t0 <~ getitem time 0 ;;
  Ok (np_sort (t0 :: offset_times)).

(** [MultiConstant.__call__], lines 155-167; [dt] is the dtype of [t]. *)
Definition __call__ (obsid : list Z) (time : list R) (ii : list Z)
    (pars : list R) (dt : dtype) (t : list R) : outcome (list R) :=
  c <~ match last pars with Some c => Ok c | None => Raise "IndexError" end ;;
  let offsets := removelast pars in
  let offsets := offsets ++ [0] in
  ii <~ (if (length t =? length time)%nat then Ok ii
         else time_bins <~ time_bins obsid time ;;
              Ok (map (fun i => (i - 1)%Z) (np_digitize t time_bins))) ;;
  taken <~ np_take offsets ii ;;
  np_add (np_full_like dt t c) taken.
End MultiConstant.

Module Linear.
Definition __init__ (slope intercept : R) : M ref :=
  alloc {| kind_of := KLinear; pars := [slope; intercept];
           _parsize := 2; _param_names := Some ["slope"; "intercept"] |}.

Definition __call__ (pars t : list R) : outcome (list R) :=
  let tmean := np_mean t in
  a <~ getitem pars 0 ;;
  b <~ getitem pars 1 ;;
  Ok (map (fun ti => a * (ti - tmean) + b) t).
End Linear.

Module Parabola.
Definition __init__ (quad slope intercept : R) : M ref :=
  alloc {| kind_of := KParabola; pars := [quad; slope; intercept];
           _parsize := 3;
           _param_names := Some ["slope"; "intercept"; "quadratic"] |}.

Definition __call__ (pars t : list R) : outcome (list R) :=
  Ok (map (np_polyval pars) t).
End Parabola.

Module Cubic.
Definition __init__ (cub quad slope intercept : R) : M ref :=
  alloc {| kind_of := KCubic; pars := [cub; quad; slope; intercept];
           _parsize := 4;
           _param_names := Some ["slope"; "intercept"; "quadratic"; "cubic"] |}.

Definition __call__ (pars t : list R) : outcome (list R) :=
  Ok (map (np_polyval pars) t).
End Cubic.

Module Sine.
Definition __init__ (amplitude period phase : R) : M ref :=
  alloc {| kind_of := KSine; pars := [amplitude; period; phase];
           _parsize := 3;
           _param_names := Some ["amplitude"; "period"; "phase"] |}.

Definition __call__ (pars t : list R) : outcome (list R) :=
  match pars with
  | [A; P; phi] => Ok (map (fun ti => A * sin ((2 * PI * ti / P) + phi)) t)
  | _ => Raise "ValueError"
  end.
End Sine.

Module CubicSun.
(** [super(Cubic, self)] in a class that does not derive from [Cubic]:
    the constructor raises before anything is stored. *)
Definition __init__ (xshift yshift : R) : M ref := raise "TypeError".
End CubicSun.

Module Keplerian.
(** [_parsize = 6]; the class defines no [_param_names]. *)
Definition __init__ (P K e w phi sys_vel : R) : M ref :=
  alloc {| kind_of := KKeplerian; pars := [P; K; e; w; phi; sys_vel];
           _parsize := 6; _param_names := None |}.

Definition criteria : R := 1e-10.

(** The arrays [E0], [M0] and [M1] all have the shape of [t]; they are
    kept together, one record per element of [t]. *)
Record anomaly : Type := { st_E0 : R; st_M0 : R; st_M1 : R }.

(** Lines 263-266, at the element [ti] of [t]. *)
Definition first_guess (P e phi t0 ti : R) : anomaly :=
  let T0 := t0 - (P * phi) / (2 * PI) in
  let M0 := 2 * PI * (ti - T0) / P in
  let E0 := M0 + e * sin M0 + 0.5 * (e ^ 2) * sin (2 * M0) in
  let M1 := E0 - e * sin E0 - M0 in
  {| st_E0 := E0; st_M0 := M0; st_M1 := M1 |}.

(** Lines 273-283: one pass of the loop body, at one element. *)
Definition refine (e : R) (a : anomaly) : anomaly :=
  let M1 := st_M1 a in
  let E := st_E0 a in
  let M1p := 1 - e * cos E in
  let M1pp := e * sin E in
  let M1ppp := 1 - M1p in
  let d1 := (- M1) / M1p in
  let d2 := (- M1) / (M1p + d1 * M1pp / 2) in
  let d3 := (- M1) / (M1p + d2 * M1pp / 2 + d2 * d2 * M1ppp / 6) in
  let E := E + d3 in
  let E0 := E in
  let M0 := E0 - e * sin E0 in
  let M1 := E0 - e * sin E0 - M0 in
  {| st_E0 := E0; st_M0 := M0; st_M1 := M1 |}.

(** [np.abs(M1) > criteria] *)
Definition unconverged (xs : list anomaly) : list bool :=
  map (fun a => Rgtb (Rabs (st_M1 a)) criteria) xs.

(** The objects met by [convergence_criteria is True]: the two boolean
    singletons and a freshly built boolean array. *)
Inductive pyobj : Type :=
| PyTrue
| PyFalse
| PyBoolArray (mask : list bool).

(** [a is b]: identity of objects; a fresh array is no other object. *)
Definition py_is (a b : pyobj) : bool :=
  match a, b with
  | PyTrue, PyTrue => true
  | PyFalse, PyFalse => true
  | _, _ => false
  end.

(** [np.sum] of a Python boolean. *)
Definition np_sum_bool (b : bool) : nat := if b then 1%nat else 0%nat.

(** The [while nd > 0] loop, lines 271-285.  [None]: the fuel ran out. *)
Fixpoint while_nd (fuel : nat) (e : R) (nd count : nat) (xs : list anomaly)
    : option (list anomaly * nat) :=
  if (0 <? nd)%nat then
    match fuel with
    | O => None
    | S fuel' =>
        let count := S count in
        let xs := map (refine e) xs in
        let convergence_criteria := PyBoolArray (unconverged xs) in
        let nd := np_sum_bool (py_is convergence_criteria PyTrue) in
        while_nd fuel' e nd count xs
    end
  else Some (xs, count).

(** Lines 262-285: the state in which the loop is left, with [count]. *)
Definition solve (fuel : nat) (P e phi : R) (t0 : R) (t : list R)
    : option (list anomaly * nat) :=
  let xs := map (first_guess P e phi t0) t in
  let convd := np_where (unconverged xs) in
  let nd := length convd in
  while_nd fuel e nd 0 xs.

(** Lines 286-287, at one element. *)
Definition radial_velocity (K e w sys_vel : R) (a : anomaly) : R :=
  let nu := 2 * atan (sqrt ((1 + e) / (1 - e)) * tan (st_E0 a / 2)) in
  K * (e * cos w + cos (w + nu)) + sys_vel.

(** [Keplerian.__call__], lines 260-288. *)
Definition __call__ (fuel : nat) (pars t : list R) : outcome (list R) :=
  match pars with
  | [P; K; e; w; phi; sys_vel] =>
      match t with
      | [] => Raise "IndexError"
      | t0 :: _ =>
          match solve fuel P e phi t0 t with
          | None => Undef
          | Some (xs, _) => Ok (map (radial_velocity K e w sys_vel) xs)
          end
      end
  | _ => Raise "ValueError"
  end.
End Keplerian.

(** ** Evaluation *)

(** [m(t)] for the instance at [self], after [array_input] has made [t] an
    array of dtype [dt].  [fuel] bounds the depth of the tree of
    composites and the number of passes of the Keplerian loop. *)
Fixpoint call (fuel : nat) (h : heap) (self : ref) (dt : dtype) (t : list R)
    : outcome (list R) :=
  match fuel with
  | O => Undef
  | S fuel' =>
      match h !! self with
      | None => Undef
      | Some o =>
          match kind_of o with
          | KConstant => Constant.__call__ (pars o) t
          | KMultiConstant obsid time ii =>
              MultiConstant.__call__ obsid time ii (pars o) dt t
          | KLinear => Linear.__call__ (pars o) t
          | KParabola => Parabola.__call__ (pars o) t
          | KCubic => Cubic.__call__ (pars o) t
          | KSine => Sine.__call__ (pars o) t
          | KKeplerian => Keplerian.__call__ fuel' (pars o) t
          | KSum m1 m2 => Sum.__call__ (fun m => call fuel' h m dt) m1 m2 t
          | KProduct m1 m2 =>
              Product.__call__ (fun m => call fuel' h m dt) m1 m2 t
          end
      end
  end.

Definition evaluate (fuel : nat) (h : heap) (self : ref) (t : pyarg)
    : outcome (list R) :=
  call fuel h self (dtype_of t) (np_atleast_1d t).

(** Running a computation from a store: its outcome, and the store left. *)
Definition result_of {A : Type} (c : M A) (h : heap) : outcome A := fst (c h).
Definition heap_after {A : Type} (c : M A) (h : heap) : heap := snd (c h).

(** ** [initialize] *)

(** The classes of the module that [initialize] can be called on. *)
Inductive pyclass : Type :=
| ClsConstant
| ClsMultiConstant
| ClsLinear
| ClsParabola
| ClsCubic
| ClsSine
| ClsKeplerian
| ClsCubicSun
| ClsSum
| ClsProduct.

(** The class attribute [_parsize]; [Sum] and [Product] inherit that of
    [MeanModel]. *)
Definition class_parsize (cls : pyclass) : nat :=
  match cls with
  | ClsConstant => 1
  | ClsMultiConstant => 0
  | ClsLinear => 2
  | ClsParabola => 3
  | ClsCubic => 4
  | ClsSine => 3
  | ClsKeplerian => 6
  | ClsCubicSun => 4
  | ClsSum => 0
  | ClsProduct => 0
  end.

(** The call of the class [cls] on the unpacked float arguments [args]: a
    number of arguments other than the one the constructor takes is a
    [TypeError]. *)
Definition construct (cls : pyclass) (args : list R) : M ref :=
  match cls, args with
  | ClsConstant, [c] => Constant.__init__ c
  | ClsLinear, [slope; intercept] => Linear.__init__ slope intercept
  | ClsParabola, [quad; slope; intercept] =>
      Parabola.__init__ quad slope intercept
  | ClsCubic, [cub; quad; slope; intercept] =>
      Cubic.__init__ cub quad slope intercept
  | ClsSine, [amplitude; period; phase] =>
      Sine.__init__ amplitude period phase
  | ClsKeplerian, [P; K; e; w; phi; sys_vel] =>
      Keplerian.__init__ P K e w phi sys_vel
  | ClsCubicSun, [xshift; yshift] => CubicSun.__init__ xshift yshift
  | ClsMultiConstant, [_; _; _] => raise "AttributeError" (* obsid.astype *)
  | ClsSum, [_; _] => raise "AttributeError"       (* m1._param_names *)
  | ClsProduct, [_; _] => raise "AttributeError"   (* m1._param_names *)
  | _, _ => raise "TypeError"
  end.

(** [initialize], lines 35-38: the class called on [_parsize] zeros.
    For [MultiConstant], [Sum] and [Product] this is [cls()], a call
    without the arguments the constructor requires. *)
Definition initialize (cls : pyclass) : M ref :=
  construct cls (repeat 0 (class_parsize cls)).

(** ** Shapes of stores *)

(** The parameter vector has the length the instance announces. *)
Definition consistent (o : object) : Prop := length (pars o) = _parsize o.

(** Children are older than the composite that holds them. *)
Definition ordered (h : list object) : Prop :=
  forall (r : ref) (o : object), h !! r = Some o ->
    match kind_of o with
    | KSum m1 m2 | KProduct m1 m2 => (m1 < r)%nat /\ (m2 < r)%nat
    | _ => True
    end.


(** Non-decreasing order of a list of reals. *)
Fixpoint increasing (l : list R) : Prop :=
  match l with
  | [] => True
  | x :: l' => match l' with
               | [] => True
               | y :: _ => x <= y
               end /\ increasing l'
  end.

(** ** The divisions of the Keplerian loop *)

(** The three divisions of one pass of the loop, lines 277-279, are by
    numbers other than zero at the element [a]. *)
Definition pass_defined (e : R) (a : Keplerian.anomaly) : Prop :=
  let M1 := Keplerian.st_M1 a in
  let E := Keplerian.st_E0 a in
  let M1p := 1 - e * cos E in
  let M1pp := e * sin E in
  let M1ppp := 1 - M1p in
  let d1 := (- M1) / M1p in
  let d2 := (- M1) / (M1p + d1 * M1pp / 2) in
  M1p <> 0
  /\ M1p + d1 * M1pp / 2 <> 0
  /\ M1p + d2 * M1pp / 2 + d2 * d2 * M1ppp / 6 <> 0.

(** * Properties *)

(** ** The store and the two monads *)

Lemma pop0_range_drop (n : nat) (p : list R) :
  (n <= length p)%nat -> pop0_range n p = Ok (drop n p).
Proof.
  revert p; induction n as [|n IH]; intros p Hn.
  - now rewrite drop_0.
  - destruct p as [|x p]; simpl in *; [lia|].
    apply IH; lia.
Qed.

Lemma lookup_alloc (h : heap) (o : object) : (h ++ [o]) !! length h = Some o.
Proof.
  rewrite lookup_app_r by lia.
  now rewrite Nat.sub_diag.
Qed.

Lemma lookup_alloc_old (h : heap) (o o' : object) (r : ref) :
  h !! r = Some o -> (h ++ [o']) !! r = Some o.
Proof. intros Hr. now apply lookup_app_l_Some. Qed.

Lemma lookup_setattr (h : heap) (r : ref) (o : object) (v : list R) :
  h !! r = Some o -> <[r := with_pars o v]> h !! r = Some (with_pars o v).
Proof.
  intros Hr. apply list_lookup_insert_eq.
  now apply lookup_lt_Some in Hr.
Qed.

(** What [set_parameters] does when the assertion holds: the outcome and
    the store, in one equation. *)
Lemma set_parameters_run (h : heap) (m : ref) (o : object) (p : pyarg) :
  h !! m = Some o ->
  (length (pars o) <= length (np_atleast_1d p))%nat ->
  MeanModel.set_parameters m p h =
    (Ok (if (length (pars o) <? length (np_atleast_1d p))%nat
         then PyNdarray (drop (length (pars o)) (np_atleast_1d p))
         else PyNone),
     <[m := with_pars o (take (length (pars o)) (np_atleast_1d p))]> h).
Proof.
  intros Hm Hlen.
  unfold MeanModel.set_parameters, bind, deref, py_assert, setattr_pars.
  rewrite Hm.
  replace (length (pars o) <=? length (np_atleast_1d p))%nat with true
    by (symmetry; apply Nat.leb_le; lia).
  cbv beta iota delta [ret].
  destruct (length (pars o) <? length (np_atleast_1d p))%nat eqn:Hlt.
  - apply Nat.ltb_lt in Hlt.
    rewrite Hm, (lookup_setattr _ _ _ _ Hm).
    cbv beta iota delta [lift with_pars]. cbn [pars].
    rewrite length_take, Nat.min_l by lia.
    now rewrite pop0_range_drop by lia.
  - apply Nat.ltb_ge in Hlt.
    rewrite Hm. cbv beta iota.
    now rewrite take_ge by lia.
Qed.

(** What it does when the assertion fails. *)
Lemma set_parameters_short (h : heap) (m : ref) (o : object) (p : pyarg) :
  h !! m = Some o ->
  (length (np_atleast_1d p) < length (pars o))%nat ->
  MeanModel.set_parameters m p h = (Raise "AssertionError", h).
Proof.
  intros Hm Hlen.
  unfold MeanModel.set_parameters, bind, deref, py_assert.
  rewrite Hm.
  destruct (Nat.leb_spec (length (pars o)) (length (np_atleast_1d p)));
    [lia|reflexivity].
Qed.

Lemma get_parameters_run (h : heap) (m : ref) (o : object) :
  h !! m = Some o -> MeanModel.get_parameters m h = (Ok (pars o), h).
Proof.
  intros Hm. unfold MeanModel.get_parameters, bind, deref. now rewrite Hm.
Qed.

(** [set_parameters] writes no instance but [self], whatever it returns. *)
Lemma set_parameters_frame (h : heap) (m c : ref) (p : pyarg) :
  c <> m ->
  heap_after (MeanModel.set_parameters m p) h !! c = h !! c.
Proof.
  intros Hc. unfold heap_after.
  destruct (h !! m) as [o|] eqn:Hm.
  - destruct (Nat.le_gt_cases (length (pars o)) (length (np_atleast_1d p))).
    + rewrite (set_parameters_run _ _ _ _ Hm) by assumption; cbn.
      now apply list_lookup_insert_ne.
    + now rewrite (set_parameters_short _ _ _ _ Hm) by assumption.
  - unfold MeanModel.set_parameters, bind, deref. now rewrite Hm.
Qed.

Lemma compose_run (op : composite_op) (h : heap) (m1 m2 : ref)
    (o1 o2 : object) (n1 n2 : list string) :
  h !! m1 = Some o1 -> h !! m2 = Some o2 ->
  _param_names o1 = Some n1 -> _param_names o2 = Some n2 ->
  compose op m1 m2 h =
    (Ok (length h),
     h ++ [ {| kind_of := match op with
                          | OpSum => KSum m1 m2
                          | OpProduct => KProduct m1 m2
                          end;
               pars := pars o1 ++ pars o2;
               _parsize := _parsize o1 + _parsize o2;
               _param_names := Some (n1 ++ n2) |} ]).
Proof.
  intros H1 H2 N1 N2.
  destruct op; cbv delta [compose MeanModel.__add__ MeanModel.__mul__
    Sum.__init__ Product.__init__ bind deref lift getattr_param_names alloc];
    cbv beta iota; now rewrite H1, H2, N1, N2.
Qed.

(** A missing [_param_names] stops both constructors before anything is
    stored. *)
Lemma compose_without_names (op : composite_op) (h : heap) (m1 m2 : ref)
    (o1 o2 : object) :
  h !! m1 = Some o1 -> h !! m2 = Some o2 ->
  _param_names o1 = None \/ _param_names o2 = None ->
  compose op m1 m2 h = (Raise "AttributeError", h).
Proof.
  intros H1 H2 HN.
  destruct op; cbv delta [compose MeanModel.__add__ MeanModel.__mul__
    Sum.__init__ Product.__init__ bind deref lift getattr_param_names alloc];
    cbv beta iota; rewrite H1, H2;
    destruct (_param_names o1), (_param_names o2), HN; congruence.
Qed.

(** ** The parameter protocol *)

(** C1, as the code has it: [set_parameters] on a Sum or Product whose
    stream is at least as long as its stored vector writes the first
    [len(pars)] values into the composite's own vector and returns the
    excess (nothing when no value is left); the parameter vectors of the
    two children are what they were. *)
Theorem composite_set_parameters_own_vector
    (h : heap) (s m1 m2 : ref) (o : object) (p : pyarg) :
  h !! s = Some o ->
  kind_of o = KSum m1 m2 \/ kind_of o = KProduct m1 m2 ->
  m1 <> s -> m2 <> s ->
  (length (pars o) <= length (np_atleast_1d p))%nat ->
  let n := length (pars o) in
  let stream := np_atleast_1d p in
  let h' := heap_after (MeanModel.set_parameters s p) h in
  result_of (MeanModel.set_parameters s p) h =
    Ok (if (n <? length stream)%nat then PyNdarray (drop n stream) else PyNone)
  /\ result_of (MeanModel.get_parameters s) h' = Ok (take n stream)
  /\ result_of (MeanModel.get_parameters m1) h' =
     result_of (MeanModel.get_parameters m1) h
  /\ result_of (MeanModel.get_parameters m2) h' =
     result_of (MeanModel.get_parameters m2) h.
Proof.
  intros Hs _ Hm1 Hm2 Hlen n stream h'.
  assert (Hframe : forall c, c <> s ->
            result_of (MeanModel.get_parameters c) h' =
            result_of (MeanModel.get_parameters c) h).
  { intros c Hc. unfold result_of, MeanModel.get_parameters, bind, deref.
    subst h'. rewrite set_parameters_frame by assumption.
    now destruct (h !! c). }
  subst h'. unfold result_of, heap_after in *.
  rewrite (set_parameters_run _ _ _ _ Hs Hlen) in *. cbn [fst snd] in *.
  repeat split; auto.
  now rewrite (get_parameters_run _ _ _ (lookup_setattr _ _ _ _ Hs)).
Qed.

Lemma composite_set_parameters_own_vector_witness :
  let h := [ {| kind_of := KConstant; pars := [1]; _parsize := 1%nat;
                _param_names := Some ["c"] |};
             {| kind_of := KConstant; pars := [2]; _parsize := 1%nat;
                _param_names := Some ["c"] |};
             {| kind_of := KSum 0%nat 1%nat; pars := [1; 2]; _parsize := 2%nat;
                _param_names := Some ["c"; "c"] |} ] in
  let h' := heap_after (MeanModel.set_parameters 2%nat (PyArray [5; 6; 7])) h in
  result_of (MeanModel.set_parameters 2%nat (PyArray [5; 6; 7])) h =
    Ok (PyNdarray [7])
  /\ result_of (MeanModel.get_parameters 2%nat) h' = Ok [5; 6]
  /\ result_of (MeanModel.get_parameters 0%nat) h' =
     result_of (MeanModel.get_parameters 0%nat) h
  /\ result_of (MeanModel.get_parameters 1%nat) h' =
     result_of (MeanModel.get_parameters 1%nat) h.
Proof.
  intros h h'.
  apply (composite_set_parameters_own_vector h 2%nat 0%nat 1%nat
           {| kind_of := KSum 0%nat 1%nat; pars := [1; 2]; _parsize := 2%nat;
              _param_names := Some ["c"; "c"] |} (PyArray [5; 6; 7])).
  - reflexivity.
  - left; reflexivity.
  - discriminate.
  - discriminate.
  - simpl; lia.
Defined.

(** C1 fails as stated: after [s = Constant(1) + Constant(2)] and
    [s.set_parameters([5, 6, 7])] the children still hold 1 and 2, not
    the sub-ranges [5] and [6]. *)
Lemma composite_set_parameters_not_distributed :
  let prog :=
    a <- Constant.__init__ 1 ;;
    b <- Constant.__init__ 2 ;;
    s <- MeanModel.__add__ a b ;;
    rest <- MeanModel.set_parameters s (PyArray [5; 6; 7]) ;;
    pa <- MeanModel.get_parameters a ;;
    pb <- MeanModel.get_parameters b ;;
    ret (rest, pa, pb) in
  result_of prog [] = Ok (PyNdarray [7], [1], [2])
  /\ result_of prog [] <> Ok (PyNdarray [7], [5], [6]).
Proof.
  split; [reflexivity|].
  intros H. inversion H. lra.
Qed.

(** C2, as the code has it: [get_parameters] of a Sum or Product returns
    the vector the composite stores itself, which is the concatenation of
    the children's vectors as they were when the composite was built; a
    later [set_parameters] on another instance, a child included, leaves
    it as it is. *)
Theorem composite_get_parameters_stored_copy
    (op : composite_op) (h : heap) (m1 m2 c : ref) (o1 o2 : object)
    (n1 n2 : list string) (p : pyarg) :
  h !! m1 = Some o1 -> h !! m2 = Some o2 ->
  _param_names o1 = Some n1 -> _param_names o2 = Some n2 ->
  c <> length h ->
  let s := length h in
  let h1 := heap_after (compose op m1 m2) h in
  let h2 := heap_after (MeanModel.set_parameters c p) h1 in
  result_of (compose op m1 m2) h = Ok s
  /\ result_of (MeanModel.get_parameters s) h1 = Ok (pars o1 ++ pars o2)
  /\ result_of (MeanModel.get_parameters s) h2 = Ok (pars o1 ++ pars o2).
Proof.
  intros H1 H2 N1 N2 Hc s h1 h2.
  subst h2 h1. unfold result_of at 1, heap_after at 1 3.
  rewrite (compose_run op _ _ _ _ _ _ _ H1 H2 N1 N2). cbn [fst snd].
  split; [reflexivity|].
  assert (Hs : (h ++ [ {| kind_of := match op with
                                    | OpSum => KSum m1 m2
                                    | OpProduct => KProduct m1 m2
                                    end;
                         pars := pars o1 ++ pars o2;
                         _parsize := _parsize o1 + _parsize o2;
                         _param_names := Some (n1 ++ n2) |} ]) !! s
               = Some {| kind_of := match op with
                                    | OpSum => KSum m1 m2
                                    | OpProduct => KProduct m1 m2
                                    end;
                         pars := pars o1 ++ pars o2;
                         _parsize := _parsize o1 + _parsize o2;
                         _param_names := Some (n1 ++ n2) |})
    by apply lookup_alloc.
  split.
  - unfold result_of. now rewrite (get_parameters_run _ _ _ Hs).
  - unfold result_of.
    rewrite <- (set_parameters_frame _ c s p) in Hs by (subst s; auto).
    now rewrite (get_parameters_run _ _ _ Hs).
Qed.

Lemma composite_get_parameters_stored_copy_witness :
  let h := [ {| kind_of := KConstant; pars := [1]; _parsize := 1%nat;
                _param_names := Some ["c"] |};
             {| kind_of := KConstant; pars := [2]; _parsize := 1%nat;
                _param_names := Some ["c"] |} ] in
  let h1 := heap_after (compose OpSum 0%nat 1%nat) h in
  let h2 := heap_after (MeanModel.set_parameters 0%nat (PyArray [5])) h1 in
  result_of (compose OpSum 0%nat 1%nat) h = Ok 2%nat
  /\ result_of (MeanModel.get_parameters 2%nat) h1 = Ok ([1] ++ [2])
  /\ result_of (MeanModel.get_parameters 2%nat) h2 = Ok ([1] ++ [2]).
Proof.
  intros h h1 h2.
  apply (composite_get_parameters_stored_copy OpSum h 0%nat 1%nat 0%nat
           {| kind_of := KConstant; pars := [1]; _parsize := 1%nat;
              _param_names := Some ["c"] |}
           {| kind_of := KConstant; pars := [2]; _parsize := 1%nat;
              _param_names := Some ["c"] |} ["c"] ["c"] (PyArray [5])).
  - reflexivity.
  - reflexivity.
  - reflexivity.
  - reflexivity.
  - discriminate.
Defined.

(** C2 fails as stated: [a.set_parameters([5])] after [s = a + b] is not
    seen through [s.get_parameters()], which still returns [1, 2] while
    the children now hold [5] and [2]. *)
Lemma composite_get_parameters_not_read_through :
  let prog :=
    a <- Constant.__init__ 1 ;;
    b <- Constant.__init__ 2 ;;
    s <- MeanModel.__add__ a b ;;
    MeanModel.set_parameters a (PyArray [5]) ;;;
    ps <- MeanModel.get_parameters s ;;
    pa <- MeanModel.get_parameters a ;;
    pb <- MeanModel.get_parameters b ;;
    ret (ps, pa ++ pb) in
  result_of prog [] = Ok ([1; 2], [5; 2])
  /\ ([1; 2] : list R) <> [5; 2].
Proof.
  split; [reflexivity|].
  intros H. inversion H. lra.
Qed.

(** C3, as the code has it: for a stream at least as long as the stored
    vector, [set_parameters] stores the first [len(pars)] values, in
    order; a longer stream gives back exactly the excess, a stream of
    exactly that length gives back nothing ([None], not an empty array). *)
Theorem set_parameters_consumes_prefix
    (h : heap) (m : ref) (o : object) (p : pyarg) :
  h !! m = Some o ->
  (length (pars o) <= length (np_atleast_1d p))%nat ->
  let n := length (pars o) in
  let stream := np_atleast_1d p in
  result_of (MeanModel.get_parameters m)
            (heap_after (MeanModel.set_parameters m p) h) = Ok (take n stream)
  /\ result_of (MeanModel.set_parameters m p) h =
     Ok (if (n <? length stream)%nat then PyNdarray (drop n stream)
         else PyNone).
Proof.
  intros Hm Hlen n stream.
  unfold result_of, heap_after.
  rewrite (set_parameters_run _ _ _ _ Hm Hlen). cbn [fst snd].
  now rewrite (get_parameters_run _ _ _ (lookup_setattr _ _ _ _ Hm)).
Qed.

Lemma set_parameters_consumes_prefix_witness :
  let h := [ {| kind_of := KLinear; pars := [0; 0]; _parsize := 2%nat;
                _param_names := Some ["slope"; "intercept"] |} ] in
  let p := PyArray [3; 4; 5] in
  result_of (MeanModel.get_parameters 0%nat)
            (heap_after (MeanModel.set_parameters 0%nat p) h) = Ok [3; 4]
  /\ result_of (MeanModel.set_parameters 0%nat p) h = Ok (PyNdarray [5]).
Proof.
  intros h p.
  apply (set_parameters_consumes_prefix h 0%nat
           {| kind_of := KLinear; pars := [0; 0]; _parsize := 2%nat;
              _param_names := Some ["slope"; "intercept"] |} p).
  - reflexivity.
  - simpl; lia.
Defined.

(** C3 fails as stated: [Constant(0).set_parameters([5])], a stream of
    exactly [parameter_count] values, returns [None] and no empty array. *)
Lemma set_parameters_exact_length_returns_None :
  let prog :=
    m <- Constant.__init__ 0 ;;
    MeanModel.set_parameters m (PyArray [5]) in
  result_of prog [] = Ok PyNone
  /\ result_of prog [] <> Ok (PyNdarray []).
Proof.
  split; [reflexivity|discriminate].
Qed.

(** C7, as the code has it: a stream shorter than the stored vector makes
    [set_parameters] fail its assertion, and, in any store, a number of
    offsets other than the count derived from [obsid] makes the
    MultiConstant constructor fail its assertion; the exception is an
    [AssertionError], raised before any parameter is assigned: the store
    is the one before the call. *)
Theorem too_few_parameters_assertion_error
    (h : heap) (m : ref) (o : object) (p : pyarg)
    (h' : heap) (offsets : pyarg) (obsid : list Z) (time : list R) :
  (h !! m = Some o ->
   (length (np_atleast_1d p) < length (pars o))%nat ->
   MeanModel.set_parameters m p h = (Raise "AssertionError", h))
  /\ (length (MultiConstant.wrap_float offsets)
       <> MultiConstant.derived_parsize obsid ->
      MultiConstant.__init__ offsets obsid time h'
      = (Raise "AssertionError", h')).
Proof.
  split.
  - intros Hm Hshort. now apply set_parameters_short with o.
  - intros Hoff. unfold MultiConstant.__init__, bind, py_assert.
    apply Nat.eqb_neq in Hoff. now rewrite Hoff.
Qed.

Lemma too_few_parameters_assertion_error_witness :
  let h := [ {| kind_of := KLinear; pars := [0; 0]; _parsize := 2%nat;
                _param_names := Some ["slope"; "intercept"] |} ] in
  MeanModel.set_parameters 0%nat (PyArray [3]) h = (Raise "AssertionError", h)
  /\ MultiConstant.__init__ (PyArray [7]) [1; 1; 2; 2]%Z [0; 1; 2; 3] []
     = (Raise "AssertionError", []).
Proof.
  intros h.
  pose proof (too_few_parameters_assertion_error h 0%nat
           {| kind_of := KLinear; pars := [0; 0]; _parsize := 2%nat;
              _param_names := Some ["slope"; "intercept"] |}
           (PyArray [3]) [] (PyArray [7]) [1; 1; 2; 2]%Z [0; 1; 2; 3])
    as [Hset Hnew].
  split.
  - apply Hset; [reflexivity|simpl; lia].
  - apply Hnew. unfold MultiConstant.derived_parsize; simpl; lia.
Defined.

(** C7 fails as stated: the exception raised on a short stream is an
    [AssertionError]; the module has no [ParameterCountError]. *)
Lemma short_stream_not_ParameterCountError :
  let prog :=
    m <- Linear.__init__ 0 0 ;;
    MeanModel.set_parameters m (PyArray [3]) in
  result_of prog [] = Raise "AssertionError"
  /\ result_of prog [] <> Raise "ParameterCountError".
Proof.
  split; [reflexivity|discriminate].
Qed.

(** ** Evaluation of composites and of MultiConstant *)

Lemma obind_Ok_inv {A B : Type} (x : outcome A) (k : A -> outcome B) (b : B) :
  obind x k = Ok b -> exists a, x = Ok a /\ k a = Ok b.
Proof.
  destruct x as [a| |]; simpl; intros H; try discriminate.
  now exists a.
Qed.

(** Instances are never removed: a value computed in a store is computed
    in every store that extends it by a new instance. *)
Lemma call_alloc (fuel : nat) (h : heap) (o : object) :
  forall (self : ref) (dt : dtype) (t v : list R),
    call fuel h self dt t = Ok v -> call fuel (h ++ [o]) self dt t = Ok v.
Proof.
  induction fuel as [|fuel IH]; intros self dt t v; simpl; [discriminate|].
  destruct (h !! self) as [o'|] eqn:Hself; [|discriminate].
  rewrite (lookup_alloc_old _ _ _ _ Hself).
  destruct (kind_of o'); auto.
  - unfold Sum.__call__. intros H.
    apply obind_Ok_inv in H as (a & Ha & H).
    apply obind_Ok_inv in H as (b & Hb & H).
    now rewrite (IH _ _ _ _ Ha), (IH _ _ _ _ Hb).
  - unfold Product.__call__. intros H.
    apply obind_Ok_inv in H as (a & Ha & H).
    apply obind_Ok_inv in H as (b & Hb & H).
    now rewrite (IH _ _ _ _ Ha), (IH _ _ _ _ Hb).
Qed.

(** The part of C8 the code does meet: when both operands carry
    [_param_names], [a + b] and [a * b] build a node whose value is the
    elementwise sum, or product, of the operands' values. *)
Lemma compose_call_elementwise (op : composite_op) (fuel : nat) (h : heap)
    (a b : ref) (oa ob : object) (na nb : list string) (dt : dtype)
    (t va vb : list R) :
  h !! a = Some oa -> h !! b = Some ob ->
  _param_names oa = Some na -> _param_names ob = Some nb ->
  call fuel h a dt t = Ok va -> call fuel h b dt t = Ok vb ->
  length va = length vb ->
  result_of (compose op a b) h = Ok (length h)
  /\ call (S fuel) (heap_after (compose op a b) h) (length h) dt t =
     Ok (zip_with_R match op with OpSum => Rplus | OpProduct => Rmult end va vb).
Proof.
  intros Ha Hb Na Nb Ca Cb Hlen.
  unfold result_of, heap_after.
  rewrite (compose_run op _ _ _ _ _ _ _ Ha Hb Na Nb). cbn [fst snd].
  split; [reflexivity|].
  cbn [call]. rewrite lookup_alloc. cbn [kind_of pars].
  destruct op; cbv beta iota delta [Sum.__call__ Product.__call__];
    rewrite (call_alloc _ _ _ _ _ _ _ Ca), (call_alloc _ _ _ _ _ _ _ Cb);
    cbn [obind]; unfold np_add, np_mul, np_broadcast;
    now rewrite Hlen, Nat.eqb_refl.
Qed.

(** Any composition with a Keplerian operand stops in the constructor of
    the composite. *)
Lemma compose_Keplerian (op : composite_op) (h : heap) (k m : ref)
    (ok om : object) :
  h !! k = Some ok -> h !! m = Some om ->
  _param_names ok = None ->
  compose op k m h = (Raise "AttributeError", h)
  /\ compose op m k h = (Raise "AttributeError", h).
Proof.
  intros Hk Hm Hn; split; eapply compose_without_names; eauto.
Qed.

(** C8 at its failing input: [Keplerian(P, K, e, w, phi, v) + Constant(c)],
    and so with [*] and with the operands exchanged, raises
    [AttributeError] in the constructor of the composite, the class
    [Keplerian] having no [_param_names]; no Sum or Product node is built. *)
Theorem Keplerian_operand_AttributeError
    (op : composite_op) (P K e w phi sys_vel c : R) :
  let left :=
    k <- Keplerian.__init__ P K e w phi sys_vel ;;
    m <- Constant.__init__ c ;;
    compose op k m in
  let right :=
    k <- Keplerian.__init__ P K e w phi sys_vel ;;
    m <- Constant.__init__ c ;;
    compose op m k in
  result_of left [] = Raise "AttributeError"
  /\ result_of right [] = Raise "AttributeError".
Proof.
  destruct op; split; reflexivity.
Qed.

Lemma MultiConstant_init_run (h : heap) (offsets : pyarg) (obsid : list Z)
    (time : list R) :
  length (MultiConstant.wrap_float offsets) = MultiConstant.derived_parsize obsid ->
  MultiConstant.__init__ offsets obsid time h =
    (Ok (length h),
     h ++ [ {| kind_of := KMultiConstant obsid time (map (fun i => (i - 1)%Z) obsid);
               pars := MultiConstant.wrap_float offsets;
               _parsize := MultiConstant.derived_parsize obsid;
               _param_names :=
                 Some (MultiConstant.names (MultiConstant.derived_parsize obsid)) |} ]).
Proof.
  intros Hlen. unfold MultiConstant.__init__, bind, py_assert.
  apply Nat.eqb_eq in Hlen. now rewrite Hlen.
Qed.





(** ** The Keplerian loop *)

(** A fresh array is not the singleton [True]: the count recomputed at
    the end of a pass is zero, whatever the residuals are. *)
Lemma recomputed_count_is_zero (xs : list Keplerian.anomaly) :
  Keplerian.np_sum_bool
    (Keplerian.py_is (Keplerian.PyBoolArray (Keplerian.unconverged xs))
                     Keplerian.PyTrue) = 0%nat.
Proof. reflexivity. Qed.

Lemma while_nd_run (fuel : nat) (e : R) (nd count : nat)
    (xs : list Keplerian.anomaly) :
  (1 <= fuel)%nat ->
  Keplerian.while_nd fuel e nd count xs =
    Some (if (0 <? nd)%nat then (map (Keplerian.refine e) xs, S count)
          else (xs, count)).
Proof.
  intros Hfuel. destruct fuel as [|fuel]; [lia|].
  simpl. destruct (0 <? nd)%nat; [|reflexivity].
  now destruct fuel.
Qed.

Lemma solve_run (fuel : nat) (P e phi t0 : R) (t : list R) :
  (1 <= fuel)%nat ->
  Keplerian.solve fuel P e phi t0 t =
    let xs := map (Keplerian.first_guess P e phi t0) t in
    Some (if (0 <? length (np_where (Keplerian.unconverged xs)))%nat
          then (map (Keplerian.refine e) xs, 1%nat)
          else (xs, 0%nat)).
Proof.
  intros Hfuel. unfold Keplerian.solve. now rewrite while_nd_run.
Qed.

(** Evaluation never fails on six parameters and a non-empty [t], and
    returns one value per element of [t]. *)
Lemma Keplerian_call_total (fuel : nat) (P K e w phi sys_vel : R) (t : list R) :
  (1 <= fuel)%nat -> t <> [] ->
  exists v, Keplerian.__call__ fuel [P; K; e; w; phi; sys_vel] t = Ok v
            /\ length v = length t.
Proof.
  intros Hfuel Ht. destruct t as [|t0 t]; [congruence|].
  unfold Keplerian.__call__. rewrite solve_run by assumption.
  cbv zeta.
  destruct (0 <? _)%nat; eexists; split; try reflexivity;
    now rewrite !length_map.
Qed.

(** C5: for [0 <= e < 1] and a non-empty [t] the evaluation terminates (a
    single unit of fuel is enough for the loop) and the Halley correction
    runs at most once: once when some residual of the first guess is above
    the tolerance, not at all otherwise, because the count recomputed at
    the end of the pass is always zero. *)
Theorem Keplerian_loop_at_most_one_pass
    (fuel : nat) (P K e w phi sys_vel : R) (t : list R) :
  0 <= e < 1 -> t <> [] -> (1 <= fuel)%nat ->
  let first := map (Keplerian.first_guess P e phi (hd 0 t)) t in
  let nd := length (np_where (Keplerian.unconverged first)) in
  exists (xs : list Keplerian.anomaly) (count : nat),
    Keplerian.solve fuel P e phi (hd 0 t) t = Some (xs, count)
    /\ (count <= 1)%nat
    /\ count = (if (0 <? nd)%nat then 1%nat else 0%nat)
    /\ Keplerian.__call__ fuel [P; K; e; w; phi; sys_vel] t =
       Ok (map (Keplerian.radial_velocity K e w sys_vel) xs)
    /\ (forall ys, Keplerian.np_sum_bool
           (Keplerian.py_is (Keplerian.PyBoolArray (Keplerian.unconverged ys))
                            Keplerian.PyTrue) = 0%nat).
Proof.
  intros _ Ht Hfuel first nd.
  destruct t as [|t0 t]; [congruence|].
  unfold Keplerian.__call__. cbn [hd] in *.
  rewrite solve_run by assumption. cbv zeta. fold first. fold nd.
  destruct (0 <? nd)%nat; do 2 eexists;
    (split; [reflexivity|]); repeat split; auto.
Qed.

(** ** Real analysis used below *)

Lemma sin_series_bounds (x : R) :
  0 <= x <= 1 -> x - x ^ 3 / 6 <= sin x <= x - x ^ 3 / 6 + x ^ 5 / 120.
Proof.
  intros [H0 H1].
  assert (Hpi : x <= PI) by (pose proof PI2_1; lra).
  pose proof (sin_bound x 0 H0 Hpi) as H.
  unfold sin_approx, sin_term in H. simpl in H.
  lra.
Qed.

Lemma cos_series_bounds (x : R) :
  0 <= x <= 1 -> 1 - x ^ 2 / 2 <= cos x <= 1 - x ^ 2 / 2 + x ^ 4 / 24.
Proof.
  intros [H0 H1].
  assert (Hlo : - PI / 2 <= x) by (pose proof PI2_1; lra).
  assert (Hhi : x <= PI / 2) by (pose proof PI2_1; lra).
  pose proof (cos_bound x 0 Hlo Hhi) as H.
  unfold cos_approx, cos_term in H. simpl in H.
  lra.
Qed.

Lemma div_lower (n d lo : R) : 0 < d -> lo * d <= n -> lo <= n / d.
Proof.
  intros Hd H. apply Rmult_le_reg_r with d; [assumption|].
  now replace (n / d * d) with n by (field; lra).
Qed.

Lemma div_upper (n d hi : R) : 0 < d -> n <= hi * d -> n / d <= hi.
Proof.
  intros Hd H. apply Rmult_le_reg_r with d; [assumption|].
  now replace (n / d * d) with n by (field; lra).
Qed.

Lemma mul_bounds (x y xl xu yl yu : R) :
  0 <= xl <= x -> x <= xu -> 0 <= yl <= y -> y <= yu ->
  xl * yl <= x * y <= xu * yu.
Proof. intros. split; nra. Qed.

(** One pass of the loop from the first guess for [e = 0.99] at the mean
    anomaly [0.05]: the residual of the guess is below [-0.04], the three
    divisors are positive, and the pass moves the eccentric anomaly from
    [0.148] to above [1.05]. *)
Lemma halley_pass_bounds :
  let e := 99 / 100 in
  let M := 1 / 20 in
  let E0 := M + e * sin M + 0.5 * (e ^ 2) * sin (2 * M) in
  let M1 := E0 - e * sin E0 - M in
  let a0 := {| Keplerian.st_E0 := E0; Keplerian.st_M0 := M;
               Keplerian.st_M1 := M1 |} in
  M1 < - (4 / 100)
  /\ pass_defined e a0
  /\ 105 / 100 <= Keplerian.st_E0 (Keplerian.refine e a0).
Proof.
  intros e M E0 M1 a0.
  assert (Hs1 : 49979 / 1000000 <= sin M <= 2499 / 50000).
  { pose proof (sin_series_bounds M) as H. unfold M in *. lra. }
  assert (Hs2 : 99833 / 1000000 <= sin (2 * M) <= 49917 / 500000).
  { pose proof (sin_series_bounds (2 * M)) as H. unfold M in *. lra. }
  assert (HE0 : 14840 / 100000 <= E0 <= 14841 / 100000).
  { unfold E0, e, M in *. lra. }
  assert (HsE : 14785 / 100000 <= sin E0 <= 14787 / 100000).
  { pose proof (sin_series_bounds E0) as H.
    assert (0 <= E0 <= 1) as H01 by lra. specialize (H H01).
    assert (E0 ^ 3 <= (14841 / 100000) ^ 3) by (apply pow_incr; lra).
    assert ((14840 / 100000) ^ 3 <= E0 ^ 3) by (apply pow_incr; lra).
    assert (E0 ^ 5 <= (14841 / 100000) ^ 5) by (apply pow_incr; lra).
    lra. }
  assert (HcE : 98898 / 100000 <= cos E0 <= 98901 / 100000).
  { pose proof (cos_series_bounds E0) as H.
    assert (0 <= E0 <= 1) as H01 by lra. specialize (H H01).
    assert (E0 ^ 2 <= (14841 / 100000) ^ 2) by (apply pow_incr; lra).
    assert ((14840 / 100000) ^ 2 <= E0 ^ 2) by (apply pow_incr; lra).
    assert (E0 ^ 4 <= (14841 / 100000) ^ 4) by (apply pow_incr; lra).
    lra. }
  assert (HM1 : 4796 / 100000 <= - M1 <= 4800 / 100000).
  { unfold M1, e, M in *. lra. }
  unfold pass_defined, a0, Keplerian.refine.
  cbn [Keplerian.st_E0 Keplerian.st_M1]. cbv zeta.
  set (M1p := 1 - e * cos E0).
  set (M1pp := e * sin E0).
  set (M1ppp := 1 - M1p).
  set (d1 := - M1 / M1p).
  set (d2 := - M1 / (M1p + d1 * M1pp / 2)).
  set (d3 := - M1 / (M1p + d2 * M1pp / 2 + d2 * d2 * M1ppp / 6)).
  assert (HM1p : 2088 / 100000 <= M1p <= 2091 / 100000).
  { unfold M1p, e. lra. }
  assert (HM1pp : 14637 / 100000 <= M1pp <= 14640 / 100000).
  { unfold M1pp, e. lra. }
  assert (HM1ppp : 97909 / 100000 <= M1ppp <= 97912 / 100000).
  { unfold M1ppp. lra. }
  assert (Hd1 : 229 / 100 <= d1 <= 230 / 100).
  { unfold d1. split; [apply div_lower|apply div_upper]; lra. }
  assert (Hp1 : 229 / 100 * (14637 / 100000) <= d1 * M1pp
                <= 230 / 100 * (14640 / 100000)).
  { apply mul_bounds; lra. }
  assert (Hd2 : 2530 / 10000 <= d2 <= 2550 / 10000).
  { unfold d2. split; [apply div_lower|apply div_upper]; lra. }
  assert (Hp2 : 2530 / 10000 * (14637 / 100000) <= d2 * M1pp
                <= 2550 / 10000 * (14640 / 100000)).
  { apply mul_bounds; lra. }
  assert (Hp3 : 2530 / 10000 * (2530 / 10000) <= d2 * d2
                <= 2550 / 10000 * (2550 / 10000)).
  { apply mul_bounds; lra. }
  assert (Hp4 : 2530 / 10000 * (2530 / 10000) * (97909 / 100000)
                <= d2 * d2 * M1ppp
                <= 2550 / 10000 * (2550 / 10000) * (97912 / 100000)).
  { apply mul_bounds; lra. }
  assert (Hd3 : 95 / 100 <= d3).
  { unfold d3. apply div_lower; lra. }
  repeat split; lra.
Qed.

Lemma halley_pass_overshoots :
  let e := 99 / 100 in
  let M := 1 / 20 in
  let E0 := M + e * sin M + 0.5 * (e ^ 2) * sin (2 * M) in
  let M1 := E0 - e * sin E0 - M in
  let a := Keplerian.refine e
             {| Keplerian.st_E0 := E0; Keplerian.st_M0 := M; Keplerian.st_M1 := M1 |} in
  M1 < - (4 / 100) /\ 105 / 100 <= Keplerian.st_E0 a.
Proof.
  intros e M E0 M1 a.
  destruct halley_pass_bounds as (Hres & _ & HE).
  split; [exact Hres|exact HE].
Qed.

(** The true anomaly of a circular orbit: [2 * atan (tan x)] and [2 * x]
    differ by a multiple of [2 * PI] wherever [tan x] is defined. *)
Lemma cos_double_atan_tan (w x : R) :
  cos x <> 0 -> cos (w + 2 * atan (tan x)) = cos (w + 2 * x).
Proof.
  intros Hx.
  set (y := atan (tan x)).
  assert (Hy : tan y = tan x) by apply tan_atan.
  assert (Hcy : 0 < cos y).
  { destruct (atan_bound (tan x)). apply cos_gt_0; unfold y; lra. }
  assert (Hcross : sin y * cos x = sin x * cos y).
  { replace (sin y) with (tan y * cos y) by (unfold tan; field; lra).
    rewrite Hy. unfold tan. field. assumption. }
  assert (Hd : sin (y - x) = 0) by (rewrite sin_minus; lra).
  replace (w + 2 * y) with ((w + 2 * x) + 2 * (y - x)) by ring.
  rewrite cos_plus, cos_2a_sin, sin_2a, Hd. ring.
Qed.

(** ** Keplerian evaluation *)

Lemma np_where_from_converged (i : nat) (xs : list Keplerian.anomaly) :
  Forall (fun a => Keplerian.st_M1 a = 0) xs ->
  np_where_from i (Keplerian.unconverged xs) = [].
Proof.
  intros H. revert i. induction H as [|a xs Ha _ IH]; intros i; [reflexivity|].
  simpl. unfold Rgtb. rewrite Ha, Rabs_R0.
  destruct (Rgt_dec 0 Keplerian.criteria) as [Hgt|_]; [|apply IH].
  unfold Keplerian.criteria in Hgt. lra.
Qed.

Lemma first_guess_circular (P phi t0 ti : R) :
  let M := 2 * PI * (ti - (t0 - P * phi / (2 * PI))) / P in
  Keplerian.first_guess P 0 phi t0 ti =
    {| Keplerian.st_E0 := M; Keplerian.st_M0 := M; Keplerian.st_M1 := 0 |}.
Proof.
  intros M. unfold Keplerian.first_guess. fold M.
  f_equal; ring.
Qed.

(** With [e = 0] the first guess is already exact and the loop is not
    entered. *)
Lemma solve_circular (fuel : nat) (P phi t0 : R) (t : list R) :
  (1 <= fuel)%nat ->
  Keplerian.solve fuel P 0 phi t0 t =
    Some (map (Keplerian.first_guess P 0 phi t0) t, 0%nat).
Proof.
  intros Hfuel. rewrite solve_run by assumption. cbv zeta.
  unfold np_where. rewrite np_where_from_converged; [reflexivity|].
  apply Forall_map, Forall_forall. intros ti _.
  now rewrite first_guess_circular.
Qed.

(** The radial velocity of a circular orbit at eccentric anomaly [M]. *)
Lemma radial_velocity_circular (K w sys_vel M M0 M1 : R) :
  cos (M / 2) <> 0 ->
  Keplerian.radial_velocity K 0 w sys_vel
    {| Keplerian.st_E0 := M; Keplerian.st_M0 := M0; Keplerian.st_M1 := M1 |}
  = K * cos (w + M) + sys_vel.
Proof.
  intros Hcos. unfold Keplerian.radial_velocity. cbn [Keplerian.st_E0].
  replace ((1 + 0) / (1 - 0)) with 1 by field.
  rewrite sqrt_1, Rmult_1_l, cos_double_atan_tan by assumption.
  replace (2 * (M / 2)) with M by field.
  ring.
Qed.


(** The first guess for [P = 1], [e = 0.99], [phi = 0.05] at the single
    time [0]: the mean anomaly is [0.05]. *)
Lemma first_guess_eccentric :
  Keplerian.first_guess 1 (99 / 100) (1 / 20) 0 0 =
    {| Keplerian.st_E0 :=
         1 / 20 + 99 / 100 * sin (1 / 20)
         + 0.5 * (99 / 100) ^ 2 * sin (2 * (1 / 20));
       Keplerian.st_M0 := 1 / 20;
       Keplerian.st_M1 :=
         1 / 20 + 99 / 100 * sin (1 / 20)
         + 0.5 * (99 / 100) ^ 2 * sin (2 * (1 / 20))
         - 99 / 100 * sin (1 / 20 + 99 / 100 * sin (1 / 20)
                           + 0.5 * (99 / 100) ^ 2 * sin (2 * (1 / 20)))
         - 1 / 20 |}.
Proof.
  unfold Keplerian.first_guess.
  replace (2 * PI * (0 - (0 - 1 * (1 / 20) / (2 * PI))) / 1) with (1 / 20)
    by (field; apply PI_neq0).
  reflexivity.
Qed.

(** There the residual of the first guess is above the tolerance: the
    loop is entered. *)
Lemma first_pass_entered :
  np_where (Keplerian.unconverged
              (map (Keplerian.first_guess 1 (99 / 100) (1 / 20) 0) [0]))
  = [0%nat].
Proof.
  cbn [map]. rewrite first_guess_eccentric.
  unfold Keplerian.unconverged, np_where. cbn [map Keplerian.st_M1].
  destruct halley_pass_overshoots as [Hres _]. cbv zeta in Hres.
  unfold Rgtb. destruct (Rgt_dec _ Keplerian.criteria) as [_|Hn];
    [reflexivity|].
  exfalso. apply Hn. unfold Keplerian.criteria.
  rewrite Rabs_left; lra.
Qed.

(** There one pass of the loop is run, and its divisions are defined. *)
Lemma first_guess_eccentric_defined :
  Forall (pass_defined (99 / 100))
         (map (Keplerian.first_guess 1 (99 / 100) (1 / 20) 0) [0]).
Proof.
  cbn [map]. rewrite first_guess_eccentric.
  constructor; [|constructor].
  exact (proj1 (proj2 halley_pass_bounds)).
Qed.

Lemma Keplerian_call_eccentric (K w sys_vel : R) :
  Keplerian.__call__ 1 [1; K; 99 / 100; w; 1 / 20; sys_vel] [0]
  = Ok [Keplerian.radial_velocity K (99 / 100) w sys_vel
          (Keplerian.refine (99 / 100)
             (Keplerian.first_guess 1 (99 / 100) (1 / 20) 0 0))].
Proof.
  unfold Keplerian.__call__. rewrite solve_run by lia. cbv zeta.
  now rewrite first_pass_entered.
Qed.

(** A single time [0], phase [0], circular orbit: the mean anomaly is [0]
    and the value is [K * cos w + sys_vel], whatever the sign of [P]. *)
Lemma Keplerian_call_at_origin (P K w sys_vel : R) :
  P <> 0 ->
  Keplerian.__call__ 1 [P; K; 0; w; 0; sys_vel] [0] = Ok [K * cos w + sys_vel].
Proof.
  intros HP.
  assert (HM : 2 * PI * (0 - (0 - P * 0 / (2 * PI))) / P = 0)
    by (field; split; first [assumption|apply PI_neq0]).
  unfold Keplerian.__call__. rewrite solve_circular by lia.
  cbn [map]. rewrite first_guess_circular, HM.
  rewrite radial_velocity_circular.
  - now rewrite Rplus_0_r.
  - replace (0 / 2) with 0 by field. rewrite cos_0. lra.
Qed.




(** C6, as the code has it: the class checks neither the eccentricity
    nor the period.  With [e < 0], [e >= 1] or [P <= 0] the constructor
    still returns an instance, and evaluating it at a non-empty [t]
    returns one value per element of [t]; no exception is raised. *)
Theorem Keplerian_no_parameter_check
    (fuel : nat) (h : heap) (P K e w phi sys_vel : R) (t : list R) :
  e < 0 \/ 1 <= e \/ P <= 0 ->
  t <> [] ->
  let build := Keplerian.__init__ P K e w phi sys_vel in
  result_of build h = Ok (length h)
  /\ exists v,
       evaluate (S (S fuel)) (heap_after build h) (length h) (PyArray t) = Ok v
       /\ length v = length t.
Proof.
  intros _ Ht build. split; [reflexivity|].
  unfold evaluate, build, heap_after, Keplerian.__init__, alloc.
  cbn [snd call np_atleast_1d]. rewrite lookup_alloc. cbn [kind_of pars].
  apply Keplerian_call_total; [lia|assumption].
Qed.

Lemma Keplerian_no_parameter_check_witness :
  let build := Keplerian.__init__ (-1) 1 2 0 0 0 in
  result_of build [] = Ok (length ([] : heap))
  /\ exists v,
       evaluate 2 (heap_after build []) (length ([] : heap)) (PyArray [0; 1]) = Ok v
       /\ length v = length [0; 1].
Proof.
  apply (Keplerian_no_parameter_check 0 [] (-1) 1 2 0 0 0 [0; 1]).
  - right. left. lra.
  - discriminate.
Defined.

(** C6 fails as stated: [Keplerian(-1, 1, 0, 0, 0, 0)], a negative
    period, is built and evaluates at [t = [0]] to [1]. *)
Lemma Keplerian_negative_period_evaluates :
  let build := Keplerian.__init__ (-1) 1 0 0 0 0 in
  result_of build [] = Ok 0%nat
  /\ evaluate 2 (heap_after build []) 0%nat (PyArray [0]) = Ok [1]
  /\ evaluate 2 (heap_after build []) 0%nat (PyArray [0])
     <> Raise "InvalidParameterError".
Proof.
  intros build. split; [reflexivity|].
  assert (H : evaluate 2 (heap_after build []) 0%nat (PyArray [0]) = Ok [1]).
  { unfold evaluate, build, heap_after, Keplerian.__init__, alloc.
    cbn [snd call np_atleast_1d app lookup list_lookup kind_of pars].
    rewrite Keplerian_call_at_origin by lra.
    rewrite cos_0. f_equal. f_equal. lra. }
  rewrite H. split; [reflexivity|discriminate].
Qed.

(** C4 at its failing input, [P = 1], [e = 0.99], [phi = 0.05] and
    [t = [0]], where the mean anomaly is [M = 0.05]: the loop is left
    after one pass ([count = 1]) with an eccentric anomaly [E] above 1.05,
    whose residual [E - e * sin E - M] against that mean anomaly is
    above 0.01, far from the tolerance [1e-10]. *)
Theorem Keplerian_exits_unconverged (fuel : nat) :
  let e := 99 / 100 in
  let phi := 1 / 20 in
  let M := Keplerian.st_M0 (Keplerian.first_guess 1 e phi 0 0) in
  M = 1 / 20
  /\ exists a : Keplerian.anomaly,
       Keplerian.solve (S fuel) 1 e phi 0 [0] = Some ([a], 1%nat)
       /\ Rabs (Keplerian.st_E0 a - e * sin (Keplerian.st_E0 a) - M)
          > Keplerian.criteria.
Proof.
  intros e phi M.
  assert (HM : 2 * PI * (0 - (0 - 1 * phi / (2 * PI))) / 1 = 1 / 20)
    by (unfold phi; field; apply PI_neq0).
  assert (HM' : M = 1 / 20) by exact HM.
  split; [exact HM'|].
  destruct halley_pass_overshoots as [Hres HE].
  cbv zeta in Hres, HE. fold e in Hres, HE.
  rewrite solve_run by lia. cbv zeta. cbn [map].
  assert (Hfirst : Keplerian.first_guess 1 e phi 0 0 =
            {| Keplerian.st_E0 :=
                 1 / 20 + e * sin (1 / 20) + 0.5 * e ^ 2 * sin (2 * (1 / 20));
               Keplerian.st_M0 := 1 / 20;
               Keplerian.st_M1 :=
                 1 / 20 + e * sin (1 / 20) + 0.5 * e ^ 2 * sin (2 * (1 / 20))
                 - e * sin (1 / 20 + e * sin (1 / 20)
                            + 0.5 * e ^ 2 * sin (2 * (1 / 20)))
                 - 1 / 20 |}).
  { unfold Keplerian.first_guess. now rewrite HM. }
  rewrite Hfirst.
  unfold Keplerian.unconverged, np_where. cbn [map Keplerian.st_M1].
  unfold Rgtb at 1.
  destruct (Rgt_dec _ Keplerian.criteria) as [_|Hn].
  - cbn [np_where_from length Nat.ltb Nat.leb].
    eexists; split; [reflexivity|].
    rewrite HM'.
    pose proof (SIN_bound (Keplerian.st_E0 (Keplerian.refine e
      {| Keplerian.st_E0 :=
           1 / 20 + e * sin (1 / 20) + 0.5 * e ^ 2 * sin (2 * (1 / 20));
         Keplerian.st_M0 := 1 / 20;
         Keplerian.st_M1 :=
           1 / 20 + e * sin (1 / 20) + 0.5 * e ^ 2 * sin (2 * (1 / 20))
           - e * sin (1 / 20 + e * sin (1 / 20)
                      + 0.5 * e ^ 2 * sin (2 * (1 / 20)))
           - 1 / 20 |}))) as [_ Hsin].
    unfold Keplerian.criteria.
    rewrite Rabs_right; unfold e in *; lra.
  - exfalso. apply Hn. unfold Keplerian.criteria.
    rewrite Rabs_left; lra.
Qed.

Lemma Keplerian_loop_at_most_one_pass_witness :
  let first :=
    map (Keplerian.first_guess 1 (99 / 100) (1 / 20) (hd 0 [0])) [0] in
  let nd := length (np_where (Keplerian.unconverged first)) in
  nd = 1%nat
  /\ exists (xs : list Keplerian.anomaly) (count : nat),
       Keplerian.solve 1 1 (99 / 100) (1 / 20) (hd 0 [0]) [0] = Some (xs, count)
       /\ (count <= 1)%nat
       /\ count = (if (0 <? nd)%nat then 1%nat else 0%nat)
       /\ Keplerian.__call__ 1 [1; 1; 99 / 100; 0; 1 / 20; 0] [0] =
          Ok (map (Keplerian.radial_velocity 1 (99 / 100) 0 0) xs)
       /\ (forall ys, Keplerian.np_sum_bool
              (Keplerian.py_is (Keplerian.PyBoolArray (Keplerian.unconverged ys))
                               Keplerian.PyTrue) = 0%nat).
Proof.
  split.
  - cbn [hd]. now rewrite first_pass_entered.
  - apply (Keplerian_loop_at_most_one_pass 1 1 1 (99 / 100) 0 (1 / 20) 0 [0]).
    + lra.
    + discriminate.
    + lia.
Defined.

(** * Further properties of the module *)

(** ** The parameter protocol, continued *)

Lemma with_pars_same (o : object) : with_pars o (pars o) = o.
Proof. now destruct o. Qed.

(** The instance [set_parameters] is called on is afterwards the same
    instance with some vector of the same length. *)
Lemma set_parameters_self (h : heap) (m : ref) (o : object) (p : pyarg) :
  h !! m = Some o ->
  exists v, heap_after (MeanModel.set_parameters m p) h !! m
            = Some (with_pars o v)
            /\ length v = length (pars o).
Proof.
  intros Hm. unfold heap_after.
  destruct (Nat.le_gt_cases (length (pars o)) (length (np_atleast_1d p)))
    as [Hle|Hgt].
  - rewrite (set_parameters_run _ _ _ _ Hm Hle). cbn [snd].
    exists (take (length (pars o)) (np_atleast_1d p)).
    split; [now apply lookup_setattr|].
    rewrite length_take. lia.
  - rewrite (set_parameters_short _ _ _ _ Hm Hgt). cbn [snd].
    exists (pars o). now rewrite with_pars_same.
Qed.

(** X1: whatever is passed to [set_parameters], and whether the call
    returns or raises, the instance keeps its class, its [_parsize], its
    [_param_names] and the length of its parameter vector, and the store
    keeps its size. *)
Theorem set_parameters_keeps_shape (h : heap) (m : ref) (o : object) (p : pyarg) :
  h !! m = Some o ->
  let h' := heap_after (MeanModel.set_parameters m p) h in
  length h' = length h
  /\ exists o', h' !! m = Some o'
       /\ kind_of o' = kind_of o
       /\ _parsize o' = _parsize o
       /\ _param_names o' = _param_names o
       /\ length (pars o') = length (pars o).
Proof.
  intros Hm h'. split.
  - subst h'. unfold heap_after.
    destruct (Nat.le_gt_cases (length (pars o)) (length (np_atleast_1d p)))
      as [Hle|Hgt].
    + rewrite (set_parameters_run _ _ _ _ Hm Hle). apply length_insert.
    + now rewrite (set_parameters_short _ _ _ _ Hm Hgt).
  - destruct (set_parameters_self h m o p Hm) as (v & Hv & Hlen).
    exists (with_pars o v). repeat split; assumption.
Qed.

Lemma set_parameters_keeps_shape_witness :
  let h := [ {| kind_of := KLinear; pars := [0; 0]; _parsize := 2%nat;
                _param_names := Some ["slope"; "intercept"] |} ] in
  let o := {| kind_of := KLinear; pars := [0; 0]; _parsize := 2%nat;
              _param_names := Some ["slope"; "intercept"] |} in
  let h' := heap_after (MeanModel.set_parameters 0%nat (PyArray [3; 4; 5])) h in
  length h' = length h
  /\ exists o', h' !! 0%nat = Some o'
       /\ kind_of o' = kind_of o
       /\ _parsize o' = _parsize o
       /\ _param_names o' = _param_names o
       /\ length (pars o') = length (pars o).
Proof.
  intros h o.
  apply (set_parameters_keeps_shape h 0%nat o (PyArray [3; 4; 5])).
  reflexivity.
Defined.

(** X2: one flat stream shared by two instances.  When the stream is
    longer than the first vector and long enough for both, the first call
    returns the rest as an array, and passing that array to the second
    instance leaves the first [n1] values in the first instance and the
    next [n2] in the second; the second call returns what is left after
    [n1 + n2] values, or [None] when nothing is. *)
Theorem set_parameters_chain
    (h : heap) (m1 m2 : ref) (o1 o2 : object) (s : list R) :
  h !! m1 = Some o1 -> h !! m2 = Some o2 -> m1 <> m2 ->
  (length (pars o1) < length s)%nat ->
  (length (pars o1) + length (pars o2) <= length s)%nat ->
  let n1 := length (pars o1) in
  let n2 := length (pars o2) in
  let h1 := heap_after (MeanModel.set_parameters m1 (PyArray s)) h in
  let h2 := heap_after (MeanModel.set_parameters m2 (PyArray (drop n1 s))) h1 in
  result_of (MeanModel.set_parameters m1 (PyArray s)) h
    = Ok (PyNdarray (drop n1 s))
  /\ result_of (MeanModel.set_parameters m2 (PyArray (drop n1 s))) h1
    = Ok (if (n1 + n2 <? length s)%nat then PyNdarray (drop (n1 + n2) s)
          else PyNone)
  /\ result_of (MeanModel.get_parameters m1) h2 = Ok (take n1 s)
  /\ result_of (MeanModel.get_parameters m2) h2 = Ok (take n2 (drop n1 s)).
Proof.
  intros H1 H2 Hne Hlt Hle n1 n2 h1 h2.
  assert (Hle1 : (length (pars o1) <= length (np_atleast_1d (PyArray s)))%nat)
    by (cbn; lia).
  assert (Hrun1 := set_parameters_run _ _ _ _ H1 Hle1).
  cbn [np_atleast_1d] in Hrun1. fold n1 in Hrun1.
  replace (n1 <? length s)%nat with true in Hrun1
    by (symmetry; apply Nat.ltb_lt; assumption).
  assert (H2' : h1 !! m2 = Some o2).
  { subst h1. rewrite set_parameters_frame by auto. exact H2. }
  assert (Hle2 : (length (pars o2)
                  <= length (np_atleast_1d (PyArray (drop n1 s))))%nat)
    by (cbn; rewrite length_drop; fold n2; lia).
  assert (Hrun2 := set_parameters_run _ _ _ _ H2' Hle2).
  cbn [np_atleast_1d] in Hrun2. fold n2 in Hrun2.
  rewrite length_drop, drop_drop in Hrun2.
  assert (H1' : h2 !! m1 = Some (with_pars o1 (take n1 s))).
  { subst h2. rewrite set_parameters_frame by auto.
    subst h1. unfold heap_after. rewrite Hrun1. cbn [snd].
    now apply lookup_setattr. }
  assert (H2'' : h2 !! m2 = Some (with_pars o2 (take n2 (drop n1 s)))).
  { subst h2. unfold heap_after at 1. rewrite Hrun2. cbn [snd].
    now apply lookup_setattr. }
  unfold result_of.
  rewrite Hrun1, Hrun2, (get_parameters_run _ _ _ H1'),
    (get_parameters_run _ _ _ H2''). cbn [fst pars with_pars].
  repeat split.
  destruct (Nat.ltb_spec n2 (length s - n1)), (Nat.ltb_spec (n1 + n2) (length s));
    try lia; reflexivity.
Qed.

Lemma set_parameters_chain_witness :
  let h := [ {| kind_of := KConstant; pars := [0]; _parsize := 1%nat;
                _param_names := Some ["c"] |};
             {| kind_of := KLinear; pars := [0; 0]; _parsize := 2%nat;
                _param_names := Some ["slope"; "intercept"] |} ] in
  let s := [7; 8; 9; 10] in
  let h1 := heap_after (MeanModel.set_parameters 0%nat (PyArray s)) h in
  let h2 := heap_after (MeanModel.set_parameters 1%nat (PyArray (drop 1 s))) h1 in
  result_of (MeanModel.set_parameters 0%nat (PyArray s)) h
    = Ok (PyNdarray (drop 1 s))
  /\ result_of (MeanModel.set_parameters 1%nat (PyArray (drop 1 s))) h1
    = Ok (if (1 + 2 <? length s)%nat then PyNdarray (drop (1 + 2) s)
          else PyNone)
  /\ result_of (MeanModel.get_parameters 0%nat) h2 = Ok (take 1 s)
  /\ result_of (MeanModel.get_parameters 1%nat) h2 = Ok (take 2 (drop 1 s)).
Proof.
  intros h s.
  apply (set_parameters_chain h 0%nat 1%nat
           {| kind_of := KConstant; pars := [0]; _parsize := 1%nat;
              _param_names := Some ["c"] |}
           {| kind_of := KLinear; pars := [0; 0]; _parsize := 2%nat;
              _param_names := Some ["slope"; "intercept"] |} s).
  - reflexivity.
  - reflexivity.
  - discriminate.
  - simpl; lia.
  - simpl; lia.
Defined.

(** X3: giving an instance its own parameter vector back changes nothing
    in the store and returns [None]. *)
Theorem set_parameters_of_get_parameters (h : heap) (m : ref) (o : object) :
  h !! m = Some o ->
  (v <- MeanModel.get_parameters m ;; MeanModel.set_parameters m (PyArray v)) h
  = (Ok PyNone, h).
Proof.
  intros Hm. unfold bind at 1.
  rewrite (get_parameters_run _ _ _ Hm).
  rewrite (set_parameters_run _ _ _ _ Hm) by (cbn; lia).
  cbn [np_atleast_1d]. rewrite Nat.ltb_irrefl, take_ge by lia.
  rewrite with_pars_same. f_equal. now apply list_insert_id.
Qed.

Lemma set_parameters_of_get_parameters_witness :
  let h := [ {| kind_of := KLinear; pars := [1; 2]; _parsize := 2%nat;
                _param_names := Some ["slope"; "intercept"] |} ] in
  (v <- MeanModel.get_parameters 0%nat ;;
   MeanModel.set_parameters 0%nat (PyArray v)) h = (Ok PyNone, h).
Proof.
  intros h.
  apply (set_parameters_of_get_parameters h 0%nat
           {| kind_of := KLinear; pars := [1; 2]; _parsize := 2%nat;
              _param_names := Some ["slope"; "intercept"] |}).
  reflexivity.
Defined.

(** ** Invariants of the store *)

Lemma consistent_alloc (h : heap) (o : object) :
  Forall consistent h -> consistent o ->
  Forall consistent (heap_after (alloc o) h).
Proof.
  intros Hh Ho. unfold heap_after, alloc. cbn [snd].
  apply Forall_app. split; [assumption|]. now constructor.
Qed.

(** The store a composition leaves: the old one, or the old one with the
    new node at its end. *)
Lemma compose_heap_cases (op : composite_op) (h : heap) (m1 m2 : ref) :
  heap_after (compose op m1 m2) h = h
  \/ exists o1 o2 n1 n2,
       h !! m1 = Some o1 /\ h !! m2 = Some o2
       /\ heap_after (compose op m1 m2) h =
          h ++ [ {| kind_of := match op with
                               | OpSum => KSum m1 m2
                               | OpProduct => KProduct m1 m2
                               end;
                    pars := pars o1 ++ pars o2;
                    _parsize := _parsize o1 + _parsize o2;
                    _param_names := Some (n1 ++ n2) |} ].
Proof.
  destruct (h !! m1) as [o1|] eqn:H1.
  2:{ left. unfold heap_after.
      destruct op; cbv delta [compose MeanModel.__add__ MeanModel.__mul__
        Sum.__init__ Product.__init__ bind deref]; cbv beta iota;
        now rewrite H1. }
  destruct (h !! m2) as [o2|] eqn:H2.
  2:{ left. unfold heap_after.
      destruct op; cbv delta [compose MeanModel.__add__ MeanModel.__mul__
        Sum.__init__ Product.__init__ bind deref]; cbv beta iota;
        now rewrite H1, H2. }
  destruct (_param_names o1) as [n1|] eqn:N1.
  2:{ left. unfold heap_after.
      now rewrite (compose_without_names op h m1 m2 o1 o2) by auto. }
  destruct (_param_names o2) as [n2|] eqn:N2.
  2:{ left. unfold heap_after.
      now rewrite (compose_without_names op h m1 m2 o1 o2) by auto. }
  right. exists o1, o2, n1, n2. repeat split; try reflexivity.
  unfold heap_after. now rewrite (compose_run op h m1 m2 o1 o2 n1 n2).
Qed.

(** X4: the length of the stored vector is the [_parsize] of the
    instance, in every store reached from one where it holds: the six
    leaf constructors, the MultiConstant constructor (through its
    assertion), [+] and [*], and [set_parameters] all keep it, whether
    they return or raise. *)
Theorem parameter_count_invariant (h : heap) :
  Forall consistent h ->
  (forall c, Forall consistent (heap_after (Constant.__init__ c) h))
  /\ (forall a b, Forall consistent (heap_after (Linear.__init__ a b) h))
  /\ (forall a b c, Forall consistent (heap_after (Parabola.__init__ a b c) h))
  /\ (forall a b c d,
        Forall consistent (heap_after (Cubic.__init__ a b c d) h))
  /\ (forall a b c, Forall consistent (heap_after (Sine.__init__ a b c) h))
  /\ (forall P K e w phi v,
        Forall consistent (heap_after (Keplerian.__init__ P K e w phi v) h))
  /\ (forall offsets obsid time,
        Forall consistent
          (heap_after (MultiConstant.__init__ offsets obsid time) h))
  /\ (forall op m1 m2, Forall consistent (heap_after (compose op m1 m2) h))
  /\ (forall m p, Forall consistent (heap_after (MeanModel.set_parameters m p) h)).
Proof.
  intros Hh.
  repeat split; intros; try (now apply consistent_alloc).
  - unfold heap_after, MultiConstant.__init__, bind, py_assert.
    destruct (Nat.eqb_spec (length (MultiConstant.wrap_float offsets))
                           (MultiConstant.derived_parsize obsid)) as [He|_];
      [|assumption].
    now apply consistent_alloc.
  - destruct (compose_heap_cases op h m1 m2)
      as [->|(o1 & o2 & n1 & n2 & H1 & H2 & ->)]; [assumption|].
    apply Forall_app. split; [assumption|]. constructor; [|constructor].
    unfold consistent. cbn [pars _parsize]. rewrite length_app.
    rewrite Forall_lookup in Hh.
    now rewrite (Hh _ _ H1), (Hh _ _ H2).
  - destruct (h !! m) as [o|] eqn:Hm.
    + destruct (Nat.le_gt_cases (length (pars o)) (length (np_atleast_1d p)))
        as [Hle|Hgt]; unfold heap_after.
      * rewrite (set_parameters_run _ _ _ _ Hm Hle). cbn [snd].
        apply Forall_insert; [assumption|].
        unfold consistent. cbn [pars _parsize with_pars].
        rewrite length_take, Nat.min_l by lia.
        exact (proj1 (Forall_lookup _ _) Hh _ _ Hm).
      * now rewrite (set_parameters_short _ _ _ _ Hm Hgt).
    + unfold heap_after, MeanModel.set_parameters, bind, deref.
      now rewrite Hm.
Qed.

Lemma parameter_count_invariant_witness :
  let h := [ {| kind_of := KConstant; pars := [1]; _parsize := 1%nat;
                _param_names := Some ["c"] |};
             {| kind_of := KLinear; pars := [2; 3]; _parsize := 2%nat;
                _param_names := Some ["slope"; "intercept"] |};
             {| kind_of := KSum 0%nat 1%nat; pars := [1; 2; 3];
                _parsize := 3%nat;
                _param_names := Some ["c"; "slope"; "intercept"] |} ] in
  Forall consistent h
  /\ (forall c, Forall consistent (heap_after (Constant.__init__ c) h))
  /\ (forall a b, Forall consistent (heap_after (Linear.__init__ a b) h))
  /\ (forall a b c, Forall consistent (heap_after (Parabola.__init__ a b c) h))
  /\ (forall a b c d,
        Forall consistent (heap_after (Cubic.__init__ a b c d) h))
  /\ (forall a b c, Forall consistent (heap_after (Sine.__init__ a b c) h))
  /\ (forall P K e w phi v,
        Forall consistent (heap_after (Keplerian.__init__ P K e w phi v) h))
  /\ (forall offsets obsid time,
        Forall consistent
          (heap_after (MultiConstant.__init__ offsets obsid time) h))
  /\ (forall op m1 m2, Forall consistent (heap_after (compose op m1 m2) h))
  /\ (forall m p, Forall consistent (heap_after (MeanModel.set_parameters m p) h)).
Proof.
  intros h.
  assert (Hh : Forall consistent h)
    by (repeat constructor).
  split; [exact Hh|]. exact (parameter_count_invariant h Hh).
Defined.

(** X5: the parameter vector of a tree of composites lists the leaves
    from left to right, however the tree is bracketed: [(a ∘ b) ∘' c] and
    [a ∘' (b ∘ c)] both store [pars a ++ pars b ++ pars c], for [∘] and
    [∘'] either of [+] and [*]. *)
Theorem compose_parameter_order
    (op op' : composite_op) (h : heap) (a b c : ref) (oa ob oc : object)
    (na nb nc : list string) :
  h !! a = Some oa -> h !! b = Some ob -> h !! c = Some oc ->
  _param_names oa = Some na -> _param_names ob = Some nb ->
  _param_names oc = Some nc ->
  let left :=
    ab <- compose op a b ;;
    s <- compose op' ab c ;;
    MeanModel.get_parameters s in
  let right :=
    bc <- compose op b c ;;
    s <- compose op' a bc ;;
    MeanModel.get_parameters s in
  result_of left h = Ok (pars oa ++ pars ob ++ pars oc)
  /\ result_of right h = Ok (pars oa ++ pars ob ++ pars oc).
Proof.
  intros Ha Hb Hc Na Nb Nc left right. subst left right.
  unfold result_of, bind. split.
  - rewrite (compose_run op h a b oa ob na nb) by assumption.
    erewrite (compose_run op' _ (length h) c); cycle 1.
    + apply lookup_alloc.
    + apply lookup_alloc_old, Hc.
    + reflexivity.
    + exact Nc.
    + erewrite get_parameters_run by apply lookup_alloc.
      cbn [fst pars]. now rewrite app_assoc.
  - rewrite (compose_run op h b c ob oc nb nc) by assumption.
    erewrite (compose_run op' _ a (length h)); cycle 1.
    + apply lookup_alloc_old, Ha.
    + apply lookup_alloc.
    + exact Na.
    + reflexivity.
    + erewrite get_parameters_run by apply lookup_alloc.
      reflexivity.
Qed.

Lemma compose_parameter_order_witness :
  let h := [ {| kind_of := KConstant; pars := [1]; _parsize := 1%nat;
                _param_names := Some ["c"] |};
             {| kind_of := KLinear; pars := [2; 3]; _parsize := 2%nat;
                _param_names := Some ["slope"; "intercept"] |};
             {| kind_of := KConstant; pars := [4]; _parsize := 1%nat;
                _param_names := Some ["c"] |} ] in
  let left :=
    ab <- compose OpSum 0%nat 1%nat ;;
    s <- compose OpProduct ab 2%nat ;;
    MeanModel.get_parameters s in
  let right :=
    bc <- compose OpSum 1%nat 2%nat ;;
    s <- compose OpProduct 0%nat bc ;;
    MeanModel.get_parameters s in
  result_of left h = Ok ([1] ++ [2; 3] ++ [4])
  /\ result_of right h = Ok ([1] ++ [2; 3] ++ [4]).
Proof.
  intros h.
  apply (compose_parameter_order OpSum OpProduct h 0%nat 1%nat 2%nat
           {| kind_of := KConstant; pars := [1]; _parsize := 1%nat;
              _param_names := Some ["c"] |}
           {| kind_of := KLinear; pars := [2; 3]; _parsize := 2%nat;
              _param_names := Some ["slope"; "intercept"] |}
           {| kind_of := KConstant; pars := [4]; _parsize := 1%nat;
              _param_names := Some ["c"] |}
           ["c"] ["slope"; "intercept"] ["c"]); reflexivity.
Defined.

(** ** Evaluation, continued *)

Lemma zip_with_R_length (f : R -> R -> R) (a b : list R) :
  length a = length b -> length (zip_with_R f a b) = length a.
Proof.
  revert b; induction a as [|x a IH]; intros [|y b] H; simpl in *;
    try discriminate; auto.
Qed.

Lemma np_broadcast_same (f : R -> R -> R) (a b : list R) :
  length a = length b -> np_broadcast f a b = Ok (zip_with_R f a b).
Proof. intros H. unfold np_broadcast. now rewrite H, Nat.eqb_refl. Qed.







(** ** Composites and their children *)

Lemma ordered_alloc (h : heap) (o : object) :
  ordered h ->
  match kind_of o with
  | KSum m1 m2 | KProduct m1 m2 => (m1 < length h)%nat /\ (m2 < length h)%nat
  | _ => True
  end ->
  ordered (h ++ [o]).
Proof.
  intros Hh Ho r o' Hr.
  destruct (Nat.lt_ge_cases r (length h)) as [Hlt|Hge].
  - rewrite lookup_app_l in Hr by assumption. now apply Hh.
  - assert (r = length h) as ->.
    { apply lookup_lt_Some in Hr. rewrite length_app in Hr. simpl in Hr. lia. }
    rewrite lookup_alloc in Hr. now injection Hr as <-.
Qed.

(** X7: a store built with the constructors and the two operators has no
    cycle: every composite is newer than its two children.  Each
    constructor, [+], [*] and [set_parameters] keep the store so. *)
Theorem ordered_invariant (h : heap) :
  ordered h ->
  (forall c, ordered (heap_after (Constant.__init__ c) h))
  /\ (forall a b, ordered (heap_after (Linear.__init__ a b) h))
  /\ (forall a b c, ordered (heap_after (Parabola.__init__ a b c) h))
  /\ (forall a b c d, ordered (heap_after (Cubic.__init__ a b c d) h))
  /\ (forall a b c, ordered (heap_after (Sine.__init__ a b c) h))
  /\ (forall P K e w phi v,
        ordered (heap_after (Keplerian.__init__ P K e w phi v) h))
  /\ (forall offsets obsid time,
        ordered (heap_after (MultiConstant.__init__ offsets obsid time) h))
  /\ (forall op m1 m2, ordered (heap_after (compose op m1 m2) h))
  /\ (forall m p, ordered (heap_after (MeanModel.set_parameters m p) h)).
Proof.
  intros Hh.
  repeat split; intros;
    try (unfold heap_after, alloc; cbn [snd]; now apply ordered_alloc).
  - unfold heap_after, MultiConstant.__init__, bind, py_assert.
    destruct (Nat.eqb_spec (length (MultiConstant.wrap_float offsets))
                           (MultiConstant.derived_parsize obsid)) as [He|_];
      [|assumption].
    now apply ordered_alloc.
  - destruct (compose_heap_cases op h m1 m2)
      as [->|(o1 & o2 & n1 & n2 & H1 & H2 & ->)]; [assumption|].
    apply ordered_alloc; [assumption|].
    apply lookup_lt_Some in H1, H2. now destruct op.
  - intros r o Hr.
    destruct (Nat.eq_dec r m) as [->|Hne].
    + destruct (h !! m) as [o0|] eqn:Hm.
      * destruct (set_parameters_self h m o0 p Hm) as (v & Ho' & _).
        assert (E : Some (with_pars o0 v) = Some o)
          by exact (eq_trans (eq_sym Ho') Hr).
        injection E as <-. cbn [kind_of with_pars].
        now apply Hh.
      * unfold heap_after, MeanModel.set_parameters, bind, deref in Hr.
        rewrite Hm in Hr. cbn in Hr.
        assert (E : None = Some o) by exact (eq_trans (eq_sym Hm) Hr).
        discriminate.
    + rewrite set_parameters_frame in Hr by assumption. now apply Hh.
Qed.

Lemma ordered_invariant_witness :
  let h := [ {| kind_of := KConstant; pars := [1]; _parsize := 1%nat;
                _param_names := Some ["c"] |};
             {| kind_of := KLinear; pars := [2; 3]; _parsize := 2%nat;
                _param_names := Some ["slope"; "intercept"] |};
             {| kind_of := KSum 0%nat 1%nat; pars := [1; 2; 3];
                _parsize := 3%nat;
                _param_names := Some ["c"; "slope"; "intercept"] |} ] in
  ordered h
  /\ (forall c, ordered (heap_after (Constant.__init__ c) h))
  /\ (forall a b, ordered (heap_after (Linear.__init__ a b) h))
  /\ (forall a b c, ordered (heap_after (Parabola.__init__ a b c) h))
  /\ (forall a b c d, ordered (heap_after (Cubic.__init__ a b c d) h))
  /\ (forall a b c, ordered (heap_after (Sine.__init__ a b c) h))
  /\ (forall P K e w phi v,
        ordered (heap_after (Keplerian.__init__ P K e w phi v) h))
  /\ (forall offsets obsid time,
        ordered (heap_after (MultiConstant.__init__ offsets obsid time) h))
  /\ (forall op m1 m2, ordered (heap_after (compose op m1 m2) h))
  /\ (forall m p, ordered (heap_after (MeanModel.set_parameters m p) h)).
Proof.
  intros h.
  assert (Hh : ordered h).
  { intros r o Hr.
    destruct r as [|[|[|r]]]; cbn in Hr; try discriminate;
      injection Hr as <-; cbn [kind_of]; try exact I.
    split; lia. }
  split; [exact Hh|]. exact (ordered_invariant h Hh).
Defined.

(** Evaluation of an instance reads the instances older than it only. *)
Lemma call_agree_below (fuel : nat) (h h' : heap) (s : ref) :
  ordered h ->
  (forall r : ref, (r < s)%nat -> h' !! r = h !! r) ->
  forall (r : ref) (dt : dtype) (t : list R), (r < s)%nat ->
    call fuel h' r dt t = call fuel h r dt t.
Proof.
  intros Hord Hagree.
  induction fuel as [|fuel IH]; intros r dt t Hr; cbn [call]; [reflexivity|].
  rewrite (Hagree _ Hr).
  destruct (h !! r) as [o|] eqn:Ho; [|reflexivity].
  pose proof (Hord _ _ Ho) as Hkids.
  destruct (kind_of o); try reflexivity.
  - destruct Hkids. unfold Sum.__call__.
    now rewrite !IH by lia.
  - destruct Hkids. unfold Product.__call__.
    now rewrite !IH by lia.
Qed.

(** X8: [set_parameters] on a Sum or Product never changes what the
    composite evaluates to: the value is computed from the children, and
    the call writes the composite's own vector only. *)
Theorem composite_value_ignores_own_parameters
    (fuel : nat) (h : heap) (s m1 m2 : ref) (o : object) (p : pyarg)
    (dt : dtype) (t : list R) :
  ordered h ->
  h !! s = Some o ->
  kind_of o = KSum m1 m2 \/ kind_of o = KProduct m1 m2 ->
  call fuel (heap_after (MeanModel.set_parameters s p) h) s dt t
  = call fuel h s dt t.
Proof.
  intros Hord Hs Hk.
  destruct fuel as [|fuel]; [reflexivity|]. cbn [call].
  destruct (set_parameters_self h s o p Hs) as (v & Ho' & _).
  rewrite Ho', Hs. cbn [kind_of with_pars].
  pose proof (Hord _ _ Hs) as Hkids.
  assert (Hagree : forall r : ref, (r < s)%nat ->
            heap_after (MeanModel.set_parameters s p) h !! r = h !! r)
    by (intros r Hr; apply set_parameters_frame; lia).
  destruct Hk as [Hk|Hk]; rewrite Hk in *; destruct Hkids.
  - unfold Sum.__call__.
    now rewrite !(call_agree_below fuel h _ s Hord Hagree) by assumption.
  - unfold Product.__call__.
    now rewrite !(call_agree_below fuel h _ s Hord Hagree) by assumption.
Qed.

Lemma composite_value_ignores_own_parameters_witness :
  let h := [ {| kind_of := KConstant; pars := [1]; _parsize := 1%nat;
                _param_names := Some ["c"] |};
             {| kind_of := KConstant; pars := [2]; _parsize := 1%nat;
                _param_names := Some ["c"] |};
             {| kind_of := KSum 0%nat 1%nat; pars := [1; 2]; _parsize := 2%nat;
                _param_names := Some ["c"; "c"] |} ] in
  call 2 (heap_after (MeanModel.set_parameters 2%nat (PyArray [5; 6])) h)
       2%nat Float64 [0; 1]
  = call 2 h 2%nat Float64 [0; 1].
Proof.
  intros h.
  apply (composite_value_ignores_own_parameters 2 h 2%nat 0%nat 1%nat
           {| kind_of := KSum 0%nat 1%nat; pars := [1; 2]; _parsize := 2%nat;
              _param_names := Some ["c"; "c"] |}).
  - intros r o Hr.
    destruct r as [|[|[|r]]]; try discriminate;
      injection Hr as <-; cbn; auto with lia.
  - reflexivity.
  - left; reflexivity.
Defined.

(** ** The closed-form leaves *)

Lemma zip_with_R_comm (f : R -> R -> R) (a b : list R) :
  (forall x y, f x y = f y x) -> zip_with_R f a b = zip_with_R f b a.
Proof.
  intros Hf. revert b; induction a as [|x a IH]; intros [|y b]; simpl;
    try reflexivity.
  now rewrite Hf, IH.
Qed.

(** X9: [a + b] and [b + a] (and [a * b] and [b * a]) evaluate to the
    same vector when both operands return vectors of one length, though
    the two nodes store their parameters in opposite orders. *)
Theorem compose_commutes_in_value
    (op : composite_op) (fuel : nat) (h : heap) (a b : ref) (oa ob : object)
    (na nb : list string) (dt : dtype) (t va vb : list R) :
  h !! a = Some oa -> h !! b = Some ob ->
  _param_names oa = Some na -> _param_names ob = Some nb ->
  call fuel h a dt t = Ok va -> call fuel h b dt t = Ok vb ->
  length va = length vb ->
  call (S fuel) (heap_after (compose op a b) h) (length h) dt t
  = call (S fuel) (heap_after (compose op b a) h) (length h) dt t
  /\ result_of (MeanModel.get_parameters (length h))
               (heap_after (compose op a b) h) = Ok (pars oa ++ pars ob)
  /\ result_of (MeanModel.get_parameters (length h))
               (heap_after (compose op b a) h) = Ok (pars ob ++ pars oa).
Proof.
  intros Ha Hb Na Nb Ca Cb Hlen.
  destruct (compose_call_elementwise op fuel h a b oa ob na nb dt t va vb
              Ha Hb Na Nb Ca Cb Hlen) as [_ ->].
  destruct (compose_call_elementwise op fuel h b a ob oa nb na dt t vb va
              Hb Ha Nb Na Cb Ca (eq_sym Hlen)) as [_ ->].
  split.
  - f_equal. apply zip_with_R_comm. destruct op; intros; ring.
  - unfold heap_after, result_of.
    rewrite (compose_run op h a b oa ob na nb),
            (compose_run op h b a ob oa nb na) by assumption.
    cbn [snd].
    split; erewrite get_parameters_run by apply lookup_alloc; reflexivity.
Qed.

Lemma compose_commutes_in_value_witness :
  let h := [ {| kind_of := KConstant; pars := [1]; _parsize := 1%nat;
                _param_names := Some ["c"] |};
             {| kind_of := KConstant; pars := [2]; _parsize := 1%nat;
                _param_names := Some ["c"] |} ] in
  call 2 (heap_after (compose OpSum 0%nat 1%nat) h) (length h) Float64 [0; 0]
  = call 2 (heap_after (compose OpSum 1%nat 0%nat) h) (length h) Float64 [0; 0]
  /\ result_of (MeanModel.get_parameters (length h))
               (heap_after (compose OpSum 0%nat 1%nat) h) = Ok ([1] ++ [2])
  /\ result_of (MeanModel.get_parameters (length h))
               (heap_after (compose OpSum 1%nat 0%nat) h) = Ok ([2] ++ [1]).
Proof.
  intros h.
  apply (compose_commutes_in_value OpSum 1 h 0%nat 1%nat
           {| kind_of := KConstant; pars := [1]; _parsize := 1%nat;
              _param_names := Some ["c"] |}
           {| kind_of := KConstant; pars := [2]; _parsize := 1%nat;
              _param_names := Some ["c"] |}
           ["c"] ["c"] Float64 [0; 0] [1; 1] [2; 2]); reflexivity.
Defined.

Lemma sum_map_affine (a b m : R) (t : list R) :
  fold_right Rplus 0 (map (fun ti => a * (ti - m) + b) t)
  = a * (fold_right Rplus 0 t - INR (length t) * m) + INR (length t) * b.
Proof.
  induction t as [|x t IH].
  - simpl. ring.
  - cbn [map fold_right length]. rewrite IH, S_INR. ring.
Qed.

Lemma sum_map_shift (c : R) (t : list R) :
  fold_right Rplus 0 (map (fun x => x + c) t)
  = fold_right Rplus 0 t + INR (length t) * c.
Proof.
  induction t as [|x t IH].
  - simpl. ring.
  - cbn [map fold_right length]. rewrite IH, S_INR. ring.
Qed.

Lemma INR_length_cons_neq_0 (x : R) (t : list R) : INR (length (x :: t)) <> 0.
Proof. apply not_0_INR. discriminate. Qed.

(** X10: a Linear is centred on the mean of the times it is given: the
    mean of the values it returns on a non-empty [t] is its intercept,
    whatever the slope. *)
Theorem Linear_mean_is_intercept (slope intercept : R) (t : list R) :
  t <> [] ->
  exists v, Linear.__call__ [slope; intercept] t = Ok v
            /\ np_mean v = intercept.
Proof.
  intros Ht. destruct t as [|x t]; [congruence|].
  eexists; split; [reflexivity|].
  unfold np_mean at 1. rewrite sum_map_affine, length_map.
  unfold np_mean.
  pose proof (INR_length_cons_neq_0 x t).
  field. assumption.
Qed.

Lemma Linear_mean_is_intercept_witness :
  exists v, Linear.__call__ [3; 7] [0; 1; 5] = Ok v /\ np_mean v = 7.
Proof.
  apply (Linear_mean_is_intercept 3 7 [0; 1; 5]). discriminate.
Defined.

(** X11: a Linear depends on the differences of the times only: adding
    one constant to every time leaves the values as they are. *)
Theorem Linear_shift_invariant (pars t : list R) (c : R) :
  Linear.__call__ pars (map (fun x => x + c) t) = Linear.__call__ pars t.
Proof.
  unfold Linear.__call__.
  destruct (getitem pars 0) as [a| |]; cbn [obind]; try reflexivity.
  destruct (getitem pars 1) as [b| |]; cbn [obind]; try reflexivity.
  f_equal. rewrite map_map.
  destruct t as [|x t]; [reflexivity|].
  apply map_ext. intros ti.
  unfold np_mean. rewrite sum_map_shift, length_map.
  pose proof (INR_length_cons_neq_0 x t).
  field. assumption.
Qed.

(** X12: Parabola and Cubic take their coefficients highest degree
    first: [Parabola(q, s, i)] is [q t^2 + s t + i] and
    [Cubic(c, q, s, i)] is [c t^3 + q t^2 + s t + i], at every time. *)
Theorem polynomial_leaves_closed_form
    (fuel : nat) (h : heap) (cub quad slope intercept : R) (t : list R) :
  evaluate (S fuel) (heap_after (Parabola.__init__ quad slope intercept) h)
           (length h) (PyArray t)
  = Ok (map (fun x => quad * x ^ 2 + slope * x + intercept) t)
  /\ evaluate (S fuel) (heap_after (Cubic.__init__ cub quad slope intercept) h)
              (length h) (PyArray t)
     = Ok (map (fun x => cub * x ^ 3 + quad * x ^ 2 + slope * x + intercept) t).
Proof.
  unfold evaluate, heap_after, Parabola.__init__, Cubic.__init__, alloc.
  cbn [snd call np_atleast_1d]. rewrite !lookup_alloc. cbn [kind_of pars].
  unfold Parabola.__call__, Cubic.__call__.
  split; f_equal; apply map_ext; intros x; unfold np_polyval;
    cbn [fold_left]; ring.
Qed.

(** X13: a Sine with a non-zero period repeats with that period: adding
    the period to every time leaves the values as they are. *)
Theorem Sine_periodic (amplitude period phase : R) (t : list R) :
  period <> 0 ->
  Sine.__call__ [amplitude; period; phase] (map (fun x => x + period) t)
  = Sine.__call__ [amplitude; period; phase] t.
Proof.
  intros HP. unfold Sine.__call__. f_equal. rewrite map_map.
  apply map_ext. intros x.
  replace (2 * PI * (x + period) / period + phase)
    with ((2 * PI * x / period + phase) + 2 * PI) by (field; assumption).
  rewrite sin_plus, sin_2PI, cos_2PI. ring.
Qed.

Lemma Sine_periodic_witness :
  Sine.__call__ [2; 31; 0] (map (fun x => x + 31) [0; 10])
  = Sine.__call__ [2; 31; 0] [0; 10].
Proof.
  apply (Sine_periodic 2 31 0 [0; 10]). lra.
Defined.

(** X14: the values of a Sine with a period other than zero stay within
    its amplitude. *)
Theorem Sine_within_amplitude (amplitude period phase : R) (t : list R) :
  period <> 0 ->
  exists v, Sine.__call__ [amplitude; period; phase] t = Ok v
            /\ length v = length t
            /\ Forall (fun y => Rabs y <= Rabs amplitude) v.
Proof.
  intros _.
  eexists; split; [reflexivity|]. split; [apply length_map|].
  apply Forall_map, Forall_forall. intros x _.
  rewrite Rabs_mult.
  pose proof (SIN_bound (2 * PI * x / period + phase)) as [Hlo Hhi].
  assert (Rabs (sin (2 * PI * x / period + phase)) <= 1)
    by (apply Rabs_le; lra).
  pose proof (Rabs_pos amplitude).
  rewrite <- (Rmult_1_r (Rabs amplitude)) at 2.
  apply Rmult_le_compat_l; assumption.
Qed.

Lemma Sine_within_amplitude_witness :
  exists v, Sine.__call__ [-2; 31; 1] [0; 10; 20] = Ok v
            /\ length v = length [0; 10; 20]
            /\ Forall (fun y => Rabs y <= Rabs (-2)) v.
Proof.
  apply (Sine_within_amplitude (-2) 31 1 [0; 10; 20]). lra.
Defined.

(** X15: [initialize] gives an instance with [_parsize] zeros for
    Constant, Linear, Parabola, Cubic, Sine and Keplerian, and raises
    [TypeError], leaving the store as it is, for MultiConstant, Sum,
    Product (called without their arguments) and CubicSun (called with
    four arguments for two). *)
Theorem initialize_outcome (h : heap) (cls : pyclass) :
  match cls with
  | ClsMultiConstant | ClsSum | ClsProduct | ClsCubicSun =>
      initialize cls h = (Raise "TypeError", h)
  | _ =>
      result_of (initialize cls) h = Ok (length h)
      /\ result_of (MeanModel.get_parameters (length h))
                   (heap_after (initialize cls) h)
         = Ok (repeat 0 (class_parsize cls))
  end.
Proof.
  destruct cls; try reflexivity;
    (split; [reflexivity|]);
    unfold result_of, heap_after, initialize, construct;
    cbn [class_parsize repeat];
    unfold Constant.__init__, Linear.__init__, Parabola.__init__,
      Cubic.__init__, Sine.__init__, Keplerian.__init__, alloc; cbn [snd];
    erewrite get_parameters_run by apply lookup_alloc; reflexivity.
Qed.

(** X16: an initialized Constant, Linear, Parabola or Cubic is the zero
    function: it returns one zero per time. *)
Theorem initialize_zero_function (fuel : nat) (h : heap) (t : list R) :
  let zero_after (cls : pyclass) :=
    evaluate (S fuel) (heap_after (initialize cls) h) (length h) (PyArray t)
    = Ok (map (fun _ => 0) t) in
  zero_after ClsConstant /\ zero_after ClsLinear
  /\ zero_after ClsParabola /\ zero_after ClsCubic.
Proof.
  intros zero_after. subst zero_after. cbv beta.
  unfold evaluate, heap_after, initialize, construct.
  cbn [class_parsize repeat].
  unfold Constant.__init__, Linear.__init__, Parabola.__init__,
    Cubic.__init__, alloc.
  cbn [snd call np_atleast_1d]. rewrite !lookup_alloc. cbn [kind_of pars].
  repeat split.
  - unfold Linear.__call__. cbn. f_equal. apply map_ext. intros x. ring.
  - unfold Parabola.__call__. f_equal. apply map_ext. intros x.
    unfold np_polyval. cbn [fold_left]. ring.
  - unfold Cubic.__call__. f_equal. apply map_ext. intros x.
    unfold np_polyval. cbn [fold_left]. ring.
Qed.

(** ** MultiConstant *)



Lemma take_one_cases (a : list R) (j : Z) :
  (exists x, take_one a j = Ok x) \/ take_one a j = Raise "IndexError".
Proof.
  unfold take_one, getitem.
  destruct (0 <=? j)%Z.
  - destruct (a !! Z.to_nat j); eauto.
  - destruct (- Z.of_nat (length a) <=? j)%Z; [|now right].
    destruct (a !! Z.to_nat (Z.of_nat (length a) + j)); eauto.
Qed.

Lemma np_take_out_of_range (a : list R) (jj : list Z) :
  Exists (fun j => (Z.of_nat (length a) <= j)%Z) jj ->
  np_take a jj = Raise "IndexError".
Proof.
  induction jj as [|j jj IH]; intros H; [now apply Exists_nil in H|].
  cbn [np_take].
  apply Exists_cons in H as [Hj|Hjj].
  - unfold take_one.
    destruct (Z.leb_spec 0 j) as [_|]; [|lia].
    unfold getitem.
    destruct (a !! Z.to_nat j) as [x|] eqn:Hx; [|reflexivity].
    apply lookup_lt_Some in Hx. lia.
  - destruct (take_one_cases a j) as [[x ->]| ->]; [|reflexivity].
    cbn [obind]. now rewrite IH.
Qed.

Lemma last_of_nonempty (l : list R) :
  l <> [] -> last l = Some (List.last l 0).
Proof.
  intros Hl. rewrite (app_removelast_last 0 Hl) at 1.
  apply last_snoc.
Qed.

Lemma length_padded_offsets (l : list R) :
  l <> [] -> length (removelast l ++ [0]) = length l.
Proof.
  intros Hl. rewrite (app_removelast_last 0 Hl) at 2.
  now rewrite !length_app.
Qed.

Lemma derived_parsize_pos (obsid : list Z) :
  (1 <= MultiConstant.derived_parsize obsid)%nat.
Proof. unfold MultiConstant.derived_parsize. lia. Qed.



(** X18: a label above the derived parameter count makes the evaluation
    at the stored times raise [IndexError].  The count only grows where
    consecutive labels differ by exactly one, so labels that skip a
    value, such as [1; 1; 3; 3], have one above it. *)
Theorem MultiConstant_label_above_count
    (fuel : nat) (h : heap) (offsets : pyarg) (obsid : list Z) (time t : list R) :
  let n := MultiConstant.derived_parsize obsid in
  length (MultiConstant.wrap_float offsets) = n ->
  length t = length time ->
  Exists (fun i => (Z.of_nat n < i)%Z) obsid ->
  let build := MultiConstant.__init__ offsets obsid time in
  result_of build h = Ok (length h)
  /\ evaluate (S fuel) (heap_after build h) (length h) (PyArray t)
     = Raise "IndexError".
Proof.
  intros n Hlen Ht Hbad build. subst build.
  unfold result_of, heap_after.
  rewrite MultiConstant_init_run by assumption. cbn [fst snd].
  split; [reflexivity|].
  unfold evaluate. cbn [call np_atleast_1d].
  rewrite lookup_alloc. cbn [kind_of pars].
  set (offs := MultiConstant.wrap_float offsets) in *.
  assert (Hne : offs <> []).
  { intros E. rewrite E in Hlen. pose proof (derived_parsize_pos obsid).
    simpl in Hlen. subst n. lia. }
  unfold MultiConstant.__call__.
  rewrite (last_of_nonempty _ Hne). cbn [obind].
  rewrite Ht, Nat.eqb_refl. cbn [obind].
  rewrite np_take_out_of_range; [reflexivity|].
  apply Exists_exists in Hbad as (i & Hin & Hi).
  apply Exists_exists. exists (i - 1)%Z. split.
  - apply list_elem_of_fmap. now exists i.
  - rewrite length_padded_offsets by assumption. rewrite Hlen. lia.
Qed.

Lemma MultiConstant_label_above_count_witness :
  let build := MultiConstant.__init__ (PyArray [5]) [1; 1; 3; 3]%Z [0; 1; 2; 3] in
  result_of build [] = Ok (length ([] : heap))
  /\ evaluate 1 (heap_after build []) (length ([] : heap)) (PyArray [0; 1; 2; 3])
     = Raise "IndexError".
Proof.
  apply (MultiConstant_label_above_count 0 [] (PyArray [5]) [1; 1; 3; 3]%Z
           [0; 1; 2; 3] [0; 1; 2; 3]).
  - reflexivity.
  - reflexivity.
  - apply Exists_cons_tl, Exists_cons_tl, Exists_cons_hd.
    unfold MultiConstant.derived_parsize; simpl; lia.
Defined.

(** ** Bin edges and prediction *)

Lemma insert_sorted_length (x : R) (l : list R) :
  length (insert_sorted x l) = S (length l).
Proof.
  induction l as [|y l IH]; [reflexivity|].
  simpl. destruct (Rleb x y); simpl; auto.
Qed.

Lemma np_sort_length (l : list R) : length (np_sort l) = length l.
Proof.
  induction l as [|x l IH]; [reflexivity|].
  unfold np_sort in *. cbn [fold_right].
  now rewrite insert_sorted_length, IH.
Qed.

Lemma Rleb_true (x y : R) : Rleb x y = true -> x <= y.
Proof. unfold Rleb. now destruct (Rle_dec x y). Qed.

Lemma Rleb_false (x y : R) : Rleb x y = false -> y < x.
Proof. unfold Rleb. destruct (Rle_dec x y); [discriminate|]. intros _. lra. Qed.

Lemma insert_sorted_increasing (x : R) (l : list R) :
  increasing l -> increasing (insert_sorted x l).
Proof.
  induction l as [|y l IH]; intros Hl; [simpl; auto|].
  cbn [insert_sorted].
  destruct (Rleb x y) eqn:Hxy.
  - apply Rleb_true in Hxy. cbn [increasing]. auto.
  - apply Rleb_false in Hxy. destruct Hl as [Hhead Htail].
    specialize (IH Htail).
    cbn [increasing]. split; [|exact IH].
    destruct l as [|z l]; cbn [insert_sorted] in *; [lra|].
    destruct (Rleb x z); lra.
Qed.

Lemma np_sort_increasing (l : list R) : increasing (np_sort l).
Proof.
  induction l as [|x l IH]; [exact I|].
  unfold np_sort in *. cbn [fold_right].
  now apply insert_sorted_increasing.
Qed.

Lemma select_length (a : list R) (mask : list bool) :
  length a = length mask -> length (select a mask) = np_sum mask.
Proof.
  revert mask; induction a as [|x a IH]; intros [|b mask] H; simpl in *;
    try discriminate; [reflexivity|].
  destruct b; simpl; rewrite IH by lia; reflexivity.
Qed.

Lemma np_sum_snoc_false (mask : list bool) :
  np_sum (mask ++ [false]) = np_sum mask.
Proof. induction mask as [|b mask IH]; simpl; [reflexivity|]. now rewrite IH. Qed.

(** X19: the edges [time_bins] returns are in non-decreasing order, and
    there is one more of them than there are places where two
    consecutive labels of [obsid] differ. *)
Theorem time_bins_increasing (obsid : list Z) (time bins : list R) :
  MultiConstant.time_bins obsid time = Ok bins ->
  increasing bins
  /\ length bins
     = S (np_sum (map (fun x => negb (x =? 0)%Z) (np_ediff1d obsid))).
Proof.
  unfold MultiConstant.time_bins, getitem_mask. intros H.
  apply obind_Ok_inv in H as (_1 & H1 & H).
  apply obind_Ok_inv in H as (_2 & H2 & H).
  apply obind_Ok_inv in H as (offset_times & Hoff & H).
  apply obind_Ok_inv in H as (t0 & _ & [= <-]).
  split; [apply (np_sort_increasing (t0 :: offset_times))|].
  change (length (np_sort (t0 :: offset_times))
          = S (np_sum (map (fun x => negb (x =? 0)%Z) (np_ediff1d obsid)))).
  rewrite np_sort_length. cbn [length]. f_equal.
  destruct (Nat.eqb_spec (length time)
              (length (map (fun x => negb (x =? 0)%Z) (np_ediff1d obsid ++ [0%Z]))))
    as [He1|]; [|discriminate].
  injection H1 as <-.
  destruct (Nat.eqb_spec (length (select time
              (map (fun x => negb (x =? 0)%Z) (np_ediff1d obsid ++ [0%Z]))))
              (length _2)) as [He|]; [|discriminate].
  injection Hoff as <-.
  rewrite zip_with_R_length by assumption.
  rewrite select_length by assumption.
  rewrite map_app. cbn [map Z.eqb negb]. apply np_sum_snoc_false.
Qed.

Lemma time_bins_increasing_witness :
  let bins := np_sort [0; (1 + 2) / 2] in
  increasing bins
  /\ length bins
     = S (np_sum (map (fun x => negb (x =? 0)%Z) (np_ediff1d [1; 1; 2; 2]%Z))).
Proof.
  apply (time_bins_increasing [1; 1; 2; 2]%Z [0; 1; 2; 3]).
  reflexivity.
Defined.


Lemma zip_full_const (c d : R) (t : list R) :
  zip_with_R Rplus (np_full t c) (map (fun _ => d) t) = map (fun _ => c + d) t.
Proof. induction t as [|x t IH]; simpl; [reflexivity|]. now rewrite <- IH. Qed.






(** ** Two instruments *)













(** ** Keplerian, continued *)

Lemma first_guess_shift (P e phi t0 ti c : R) :
  Keplerian.first_guess P e phi (t0 + c) (ti + c)
  = Keplerian.first_guess P e phi t0 ti.
Proof.
  unfold Keplerian.first_guess.
  replace (ti + c - (t0 + c - P * phi / (2 * PI)))
    with (ti - (t0 - P * phi / (2 * PI))) by ring.
  reflexivity.
Qed.

(** X22: a Keplerian reads the times relative to the first one: adding
    one constant to every time leaves the outcome as it is, values and
    exceptions alike. *)
Theorem Keplerian_shift_invariant (fuel : nat) (pars t : list R) (c : R) :
  Keplerian.__call__ fuel pars (map (fun x => x + c) t)
  = Keplerian.__call__ fuel pars t.
Proof.
  unfold Keplerian.__call__.
  destruct pars as [|P [|K [|e [|w [|phi [|sv [|? ?]]]]]]]; try reflexivity.
  destruct t as [|t0 t]; [reflexivity|].
  cbn [map]. unfold Keplerian.solve.
  change (t0 + c :: map (fun x => x + c) t)
    with (map (fun x => x + c) (t0 :: t)).
  rewrite map_map.
  rewrite (map_ext (fun x => Keplerian.first_guess P e phi (t0 + c) (x + c))
                   (Keplerian.first_guess P e phi t0))
    by (intros; apply first_guess_shift).
  reflexivity.
Qed.


Lemma radial_velocity_bound (K e w sys_vel : R) (a : Keplerian.anomaly) :
  Rabs (Keplerian.radial_velocity K e w sys_vel a - sys_vel)
  <= Rabs K * (Rabs e + 1).
Proof.
  unfold Keplerian.radial_velocity.
  set (nu := 2 * atan (sqrt ((1 + e) / (1 - e)) * tan (Keplerian.st_E0 a / 2))).
  replace (K * (e * cos w + cos (w + nu)) + sys_vel - sys_vel)
    with (K * (e * cos w + cos (w + nu))) by ring.
  rewrite Rabs_mult.
  apply Rmult_le_compat_l; [apply Rabs_pos|].
  eapply Rle_trans; [apply Rabs_triang|].
  rewrite Rabs_mult.
  assert (Rabs (cos w) <= 1)
    by (apply Rabs_le; pose proof (COS_bound w); lra).
  assert (Rabs (cos (w + nu)) <= 1)
    by (apply Rabs_le; pose proof (COS_bound (w + nu)); lra).
  pose proof (Rabs_pos e).
  nra.
Qed.

(** X24: for a period other than zero, an eccentricity [0 <= e < 1]
    and a first guess at which the divisions of the loop are defined,
    every value a Keplerian returns lies within [|K| * (e + 1)] of the
    systemic velocity. *)
Theorem Keplerian_within_amplitude
    (fuel : nat) (P K e w phi sys_vel : R) (t v : list R) :
  P <> 0 -> 0 <= e < 1 ->
  Forall (pass_defined e) (map (Keplerian.first_guess P e phi (hd 0 t)) t) ->
  Keplerian.__call__ fuel [P; K; e; w; phi; sys_vel] t = Ok v ->
  Forall (fun y => Rabs (y - sys_vel) <= Rabs K * (e + 1)) v.
Proof.
  intros _ [He _] _.
  unfold Keplerian.__call__.
  destruct t as [|t0 t]; [discriminate|].
  destruct (Keplerian.solve _ _ _ _ _ _) as [[xs n]|]; [|discriminate].
  intros [= <-].
  apply Forall_map, Forall_forall. intros a _.
  rewrite <- (Rabs_right e) at 2 by lra.
  apply radial_velocity_bound.
Qed.

Lemma Keplerian_within_amplitude_witness :
  Forall (fun y => Rabs (y - 2) <= Rabs 3 * (99 / 100 + 1))
    [Keplerian.radial_velocity 3 (99 / 100) 1 2
       (Keplerian.refine (99 / 100)
          (Keplerian.first_guess 1 (99 / 100) (1 / 20) 0 0))].
Proof.
  apply (Keplerian_within_amplitude 1 1 3 (99 / 100) 1 (1 / 20) 2 [0]).
  - lra.
  - lra.
  - cbn [hd]. apply first_guess_eccentric_defined.
  - apply Keplerian_call_eccentric.
Defined.

(** X25: empty times.  An instance built from float arguments returns
    an empty array on an empty [t], except a Keplerian, which reads
    [t[0]] and raises [IndexError]. *)
Theorem evaluate_empty_times
    (fuel : nat) (h : heap) (cls : pyclass) (args : list R) (r : ref) :
  result_of (construct cls args) h = Ok r ->
  evaluate (S fuel) (heap_after (construct cls args) h) r (PyArray [])
  = match cls with
    | ClsKeplerian => Raise "IndexError"
    | _ => Ok []
    end.
Proof.
  unfold result_of, heap_after, evaluate.
  destruct cls;
    destruct args as [|a1 [|a2 [|a3 [|a4 [|a5 [|a6 [|a7 args]]]]]]];
    cbn [construct]; try discriminate;
    unfold Constant.__init__, Linear.__init__, Parabola.__init__,
      Cubic.__init__, Sine.__init__, Keplerian.__init__, alloc;
    cbn [fst snd]; intros [= <-];
    cbn [call np_atleast_1d]; rewrite lookup_alloc; reflexivity.
Qed.

Lemma evaluate_empty_times_witness :
  evaluate 1 (heap_after (construct ClsKeplerian [1; 1; 0; 0; 0; 0]) [])
           0%nat (PyArray [])
  = Raise "IndexError".
Proof.
  apply (evaluate_empty_times 0 [] ClsKeplerian [1; 1; 0; 0; 0; 0] 0%nat).
  reflexivity.
Defined.

(** ** A composite's value and its parameter vector *)

Lemma bind_Ok {A B : Type} (c : M A) (k : A -> M B) (h h' : heap) (a : A) :
  c h = (Ok a, h') -> bind c k h = k a h'.
Proof. unfold bind. now intros ->. Qed.

Lemma call_step (fuel : nat) (h : heap) (r : ref) (o : object)
    (dt : dtype) (t : list R) :
  h !! r = Some o ->
  call (S fuel) h r dt t =
    match kind_of o with
    | KConstant => Constant.__call__ (pars o) t
    | KMultiConstant obsid time ii =>
        MultiConstant.__call__ obsid time ii (pars o) dt t
    | KLinear => Linear.__call__ (pars o) t
    | KParabola => Parabola.__call__ (pars o) t
    | KCubic => Cubic.__call__ (pars o) t
    | KSine => Sine.__call__ (pars o) t
    | KKeplerian => Keplerian.__call__ fuel (pars o) t
    | KSum m1 m2 => Sum.__call__ (fun m => call fuel h m dt) m1 m2 t
    | KProduct m1 m2 => Product.__call__ (fun m => call fuel h m dt) m1 m2 t
    end.
Proof. intros Hr. cbn [call]. now rewrite Hr. Qed.

(** X26: the value of a composite follows its children, its parameter
    vector does not.  After [s = Constant(x) + Constant(y)] and
    [a.set_parameters([x'])] on the first child, [s] evaluates to
    [x' + y] at every time while [s.get_parameters()] is still [[x, y]]. *)
Theorem composite_value_follows_children
    (fuel : nat) (h : heap) (x y x' : R) (dt : dtype) (t : list R) :
  let prog :=
    a <- Constant.__init__ x ;;
    b <- Constant.__init__ y ;;
    s <- MeanModel.__add__ a b ;;
    MeanModel.set_parameters a (PyArray [x']) ;;;
    ret s in
  let s := S (S (length h)) in
  result_of prog h = Ok s
  /\ call (S (S fuel)) (heap_after prog h) s dt t
     = Ok (map (fun _ => x' + y) t)
  /\ result_of (MeanModel.get_parameters s) (heap_after prog h) = Ok [x; y].
Proof.
  intros prog s. unfold s. clear s.
  set (s := S (S (length h))).
  set (oa := {| kind_of := KConstant; pars := [x]; _parsize := 1%nat;
                _param_names := Some ["c"] |}).
  set (ob := {| kind_of := KConstant; pars := [y]; _parsize := 1%nat;
                _param_names := Some ["c"] |}).
  set (os := {| kind_of := KSum (length h) (S (length h));
                pars := [x] ++ [y]; _parsize := (1 + 1)%nat;
                _param_names := Some (["c"] ++ ["c"]) |}).
  set (h3 := ((h ++ [oa]) ++ [ob]) ++ [os]).
  assert (La : h3 !! length h = Some oa).
  { subst h3. do 2 apply lookup_alloc_old. apply lookup_alloc. }
  assert (Lb : h3 !! S (length h) = Some ob).
  { subst h3. apply lookup_alloc_old.
    replace (S (length h)) with (length (h ++ [oa]))
      by (rewrite length_app; simpl; lia).
    apply lookup_alloc. }
  assert (Ls : h3 !! s = Some os).
  { subst h3 s.
    replace (S (S (length h))) with (length ((h ++ [oa]) ++ [ob]))
      by (rewrite !length_app; simpl; lia).
    apply lookup_alloc. }
  assert (Hrun : prog h = (Ok s, <[length h := with_pars oa [x']]> h3)).
  { subst prog.
    rewrite (bind_Ok _ _ h (h ++ [oa]) (length h)) by reflexivity.
    rewrite (bind_Ok _ _ (h ++ [oa]) ((h ++ [oa]) ++ [ob]) (S (length h)))
      by (unfold Constant.__init__, alloc; rewrite length_app, Nat.add_1_r;
          reflexivity).
    change (MeanModel.__add__ (length h) (S (length h)))
      with (compose OpSum (length h) (S (length h))).
    rewrite (bind_Ok _ _ ((h ++ [oa]) ++ [ob]) h3 s).
    2:{ rewrite (compose_run OpSum ((h ++ [oa]) ++ [ob]) (length h)
                   (S (length h)) oa ob ["c"] ["c"]);
          [|apply lookup_alloc_old, lookup_alloc
           |replace (S (length h)) with (length (h ++ [oa]))
              by (rewrite length_app; simpl; lia); apply lookup_alloc
           |reflexivity|reflexivity].
        subst s. rewrite !length_app. cbn [length].
        rewrite !Nat.add_1_r. reflexivity. }
    rewrite (bind_Ok _ _ h3 (<[length h := with_pars oa [x']]> h3) PyNone);
      [reflexivity|].
    rewrite (set_parameters_run h3 (length h) oa (PyArray [x']) La)
      by (simpl; lia).
    reflexivity. }
  unfold result_of, heap_after. rewrite Hrun. cbn [fst snd].
  assert (La' : <[length h := with_pars oa [x']]> h3 !! length h
                = Some (with_pars oa [x']))
    by now apply lookup_setattr.
  assert (Lb' : <[length h := with_pars oa [x']]> h3 !! S (length h) = Some ob)
    by (rewrite list_lookup_insert_ne by lia; exact Lb).
  assert (Ls' : <[length h := with_pars oa [x']]> h3 !! s = Some os)
    by (rewrite list_lookup_insert_ne by (subst s; lia); exact Ls).
  split; [reflexivity|]. split.
  - rewrite (call_step _ _ _ _ _ _ Ls'). cbn [kind_of os].
    unfold Sum.__call__.
    rewrite (call_step _ _ _ _ _ _ La'), (call_step _ _ _ _ _ _ Lb').
    cbn [kind_of pars with_pars oa ob].
    unfold Constant.__call__, getitem. cbn [lookup list_lookup obind].
    unfold np_add. rewrite np_broadcast_same
      by (unfold np_full; now rewrite !length_map).
    change (np_full t y) with (map (fun _ : R => y) t).
    rewrite zip_full_const. reflexivity.
  - now rewrite (get_parameters_run _ _ _ Ls').
Qed.
